(** * check_build.py: the pre-publish checklist of swagger-sdk

    A shallow embedding of [src/check_build.py] and the properties of its
    four checks and of the runner [main].

    - Python [str] values are lists of Unicode code points ([text]).
    - The working directory is a finite map from the relative paths the
      script uses to directory entries ([gmap string entry]); the script
      only reads it, so every check of one run sees the same map.
    - A Python computation that prints and may raise is a value of [Py A]:
      the lines given to [print], in order, and how the computation ended.
      [print] itself does not fail, and text files decode as UTF-8. *)

From Stdlib Require Import NArith String Ascii List Bool Lia.
From stdpp Require Import base option list strings gmap.

Open Scope list_scope.

(** ** Python strings *)

(** A code point of a Python [str]. *)
Definition char : Type := N.

(** A Python [str]. *)
Definition text : Type := list char.

Module Utf8.

(** String literals of the source are UTF-8 in the file; [decode] turns the
    bytes of a literal into the code points Python sees.  Only well-formed
    sequences occur in the literals of the script. *)

Local Open Scope N_scope.

Definition cont (b : N) : N := N.land b 63.

Fixpoint decode (bs : list N) : text :=
  match bs with
  | [] => []
  | b :: rest =>
      if b <? 128 then b :: decode rest
      else if b <? 224 then
        match rest with
        | b1 :: rest' => (N.land b 31 * 64 + cont b1) :: decode rest'
        | _ => [b]
        end
      else if b <? 240 then
        match rest with
        | b1 :: b2 :: rest' =>
            (N.land b 15 * 4096 + cont b1 * 64 + cont b2) :: decode rest'
        | _ => [b]
        end
      else
        match rest with
        | b1 :: b2 :: b3 :: rest' =>
            (N.land b 7 * 262144 + cont b1 * 4096 + cont b2 * 64 + cont b3)
              :: decode rest'
        | _ => [b]
        end
  end.

End Utf8.

(** [u s] is the Python [str] written [s] in the source. *)
Definition u (s : string) : text :=
  Utf8.decode (map N_of_ascii (list_ascii_of_string s)).

(** [ch s] is the one character of the literal [s]. *)
Definition ch (s : string) : char := hd 0%N (u s).

(** The escape [\n] and the quote characters of the source's literals. *)
Definition nl : text := [10%N].
Definition dquote : text := [34%N].
Definition squote : text := [39%N].

(** [prefix in s] at position 0: [s.startswith(prefix)]. *)
Fixpoint startswith (prefix s : text) : bool :=
  match prefix, s with
  | [], _ => true
  | _ :: _, [] => false
  | p :: prefix', c :: s' => (p =? c)%N && startswith prefix' s'
  end.

(** [needle in hay] for two [str] values. *)
Fixpoint contains (needle hay : text) : bool :=
  startswith needle hay ||
  match hay with
  | [] => false
  | _ :: hay' => contains needle hay'
  end.

(** [s.split(sep)] for a separator [sep] of one character: the fields
    between the occurrences of [sep], never an empty list. *)
Fixpoint split (sep : char) (s : text) : list text :=
  match s with
  | [] => [[]]
  | c :: s' =>
      if (c =? sep)%N then [] :: split sep s'
      else
        match split sep s' with
        | [] => [[c]]
        | field :: fields => (c :: field) :: fields
        end
  end.

(** [str.isspace] on one character: the white space of CPython's
    [_PyUnicode_IsWhitespace]. *)
Definition isspace (c : char) : bool :=
  ((9 <=? c) && (c <=? 13) || (28 <=? c) && (c <=? 32)
   || (c =? 0x85) || (c =? 0xA0) || (c =? 0x1680)
   || (0x2000 <=? c) && (c <=? 0x200A)
   || (c =? 0x2028) || (c =? 0x2029) || (c =? 0x202F)
   || (c =? 0x205F) || (c =? 0x3000))%N.

(** Dropping the leading, the trailing, and both runs of characters that
    satisfy [p]. *)
Fixpoint lstrip_by (p : char -> bool) (s : text) : text :=
  match s with
  | [] => []
  | c :: s' => if p c then lstrip_by p s' else s
  end.

Definition rstrip_by (p : char -> bool) (s : text) : text :=
  rev (lstrip_by p (rev s)).

Definition strip_by (p : char -> bool) (s : text) : text :=
  rstrip_by p (lstrip_by p s).

(** [s.strip()]. *)
Definition strip (s : text) : text := strip_by isspace s.

(** [s.strip(chars)]. *)
Definition strip_chars (chars s : text) : text :=
  strip_by (fun c => existsb (N.eqb c) chars) s.

(** The lines a text file yields when iterated: each keeps its final
    newline, and only the last one may lack it. *)
Fixpoint readlines (s : text) : list text :=
  match s with
  | [] => []
  | c :: s' =>
      if (c =? 10)%N then [c] :: readlines s'
      else
        match readlines s' with
        | [] => [[c]]
        | line :: lines => (c :: line) :: lines
        end
  end.

(** ["=" * 50] and the like. *)
Definition str_mul (s : text) (n : nat) : text := concat (replicate n s).

(** ** Exceptions, output and the monad of the script *)

(** The exceptions a check can raise, all instances of [Exception]:
    [IndexError] from a list index, [OSError] from [open]. *)
Inductive exn : Type :=
  | IndexError
  | OSError (msg : text).

(** [str(e)], what [{e}] prints. *)
Definition exn_str (e : exn) : text :=
  match e with
  | IndexError => u "list index out of range"
  | OSError msg => msg
  end.

Inductive outcome (A : Type) : Type :=
  | Returns (a : A)
  | Raises (e : exn).
Arguments Returns {A} a.
Arguments Raises {A} e.

(** A computation: the arguments of its [print] calls in order, and how it
    ended. *)
Definition Py (A : Type) : Type := (list text * outcome A)%type.

Definition stdout {A} (m : Py A) : list text := fst m.
Definition outcome_of {A} (m : Py A) : outcome A := snd m.

Definition ret {A} (a : A) : Py A := ([], Returns a).
Definition raise {A} (e : exn) : Py A := ([], Raises e).
Definition print (s : text) : Py unit := ([s], Returns tt).

Definition bind {A B} (m : Py A) (k : A -> Py B) : Py B :=
  match m with
  | (out, Returns a) => let '(out', r) := k a in (out ++ out', r)
  | (out, Raises e) => (out, Raises e)
  end.

(** [try: body  except Exception as e: handler e]. *)
Definition try_except {A} (body : Py A) (handler : exn -> Py A) : Py A :=
  match body with
  | (out, Returns a) => (out, Returns a)
  | (out, Raises e) => let '(out', r) := handler e in (out ++ out', r)
  end.

Declare Scope py_scope.
Delimit Scope py_scope with py.
Notation "x <- m ; k" := (bind m (fun x => k))
  (at level 100, m at next level, right associativity) : py_scope.
Notation "m ;; k" := (bind m (fun _ => k))
  (at level 100, right associativity) : py_scope.
Open Scope py_scope.

(** ** The working directory *)

(** What a relative path names: a text file whose decoded contents, as
    [read()] returns them, are [content]; or something that exists but that
    [open] refuses (a directory, a file without read permission), with the
    message of the [OSError]. *)
Inductive entry : Type :=
  | Readable (content : text)
  | Unopenable (msg : text).

(** [os.path.exists(path)] and [Path(path).exists()]. *)
Definition path_exists (fs : gmap string entry) (path : string) : bool :=
  match fs !! path with
  | Some _ => true
  | None => false
  end.

(** [open(path, "r", encoding="utf-8")] followed by reading the file. *)
Definition open_read (fs : gmap string entry) (path : string) : Py text :=
  match fs !! path with
  | Some (Readable content) => ret content
  | Some (Unopenable msg) => raise (OSError msg)
  | None =>
      raise (OSError (u "[Errno 2] No such file or directory: '" ++ u path ++ u "'"))
  end.

(** ** The checks *)

Definition check_file_exists (fs : gmap string entry) (filepath : string) : Py bool :=
  if path_exists fs filepath then
    print (u "[OK] " ++ u filepath ++ u " 存在");;
    ret true
  else
    print (u "[FAIL] " ++ u filepath ++ u " 不存在");;
    ret false.

(** The loop [for file in required_files: if not check_file_exists(file):
    all_exist = False] of both file-list checks, from the current value of
    [all_exist]. *)
Fixpoint required_files_loop (fs : gmap string entry) (required_files : list string)
    (all_exist : bool) : Py bool :=
  match required_files with
  | [] => ret all_exist
  | file :: rest =>
      ok <- check_file_exists fs file;
      required_files_loop fs rest (if negb ok then false else all_exist)
  end.

Definition package_files : list string :=
  [ "swagger_sdk/__init__.py";
    "swagger_sdk/builder.py";
    "swagger_sdk/models.py";
    "swagger_sdk/enums.py" ].

Definition check_package_structure (fs : gmap string entry) : Py bool :=
  print (nl ++ u "检查包结构...");;
  let required_files := package_files in
  let all_exist := true in
  required_files_loop fs required_files all_exist.

Definition build_files : list string :=
  [ "pyproject.toml"; "setup.py"; "MANIFEST.in"; "LICENSE"; "README.md" ].

Definition check_build_files (fs : gmap string entry) : Py bool :=
  print (nl ++ u "检查构建文件...");;
  let required_files := build_files in
  let all_exist := true in
  required_files_loop fs required_files all_exist.

(** [lst[1]]. *)
Definition index1 (fields : list text) : Py text :=
  match fields !! 1%nat with
  | Some field => ret field
  | None => raise IndexError
  end.

(** The loop over the lines of [__init__.py]: the value of
    [version_in_init] when it ends ([None] when no line matched). *)
Fixpoint version_loop (lines : list text) : Py (option text) :=
  match lines with
  | [] => ret None
  | line :: rest =>
      if startswith (u "__version__") line then
        field <- index1 (split (ch "=") line);
        ret (Some (strip_chars squote (strip_chars dquote (strip field))))
      else version_loop rest
  end.

(** [not version_in_init]: [None] and the empty string are false. *)
Definition not_version (version_in_init : option text) : bool :=
  match version_in_init with
  | None => true
  | Some [] => true
  | Some (_ :: _) => false
  end.

(** [f'version = "{version_in_init}"']. *)
Definition version_pattern (version_in_init : text) : text :=
  u "version = " ++ dquote ++ version_in_init ++ dquote.

Definition check_version_consistency (fs : gmap string entry) : Py bool :=
  print (nl ++ u "检查版本号一致性...");;
  let init_path := "swagger_sdk/__init__.py"%string in
  if negb (path_exists fs init_path) then
    print (u "✗ swagger_sdk/__init__.py 不存在");;
    ret false
  else
    f <- open_read fs init_path;
    version_in_init <- version_loop (readlines f);
    if not_version version_in_init then
      print (u "[FAIL] 在 __init__.py 中未找到 __version__");;
      ret false
    else
      let v := default [] version_in_init in
      print (u "[OK] __init__.py 版本: " ++ v);;
      if path_exists fs "pyproject.toml" then
        content <- open_read fs "pyproject.toml";
        if contains (version_pattern v) content then
          print (u "[OK] pyproject.toml 版本一致: " ++ v);;
          ret true
        else
          print (u "[FAIL] pyproject.toml 版本不一致");;
          ret false
      else ret true.

(** [for warning in warnings: print(warning)]. *)
Fixpoint print_each (warnings : list text) : Py unit :=
  match warnings with
  | [] => ret tt
  | warning :: rest => print warning;; print_each rest
  end.

(** The [warnings] a metadata file adds: one per placeholder found in it. *)
Definition warn_if (placeholder : text) (content : text) (warning : text) : list text :=
  if contains placeholder content then [warning] else [].

Definition check_metadata (fs : gmap string entry) : Py bool :=
  print (nl ++ u "检查元数据...");;
  let warnings := [] in
  warnings <-
    (if path_exists fs "pyproject.toml" then
       content <- open_read fs "pyproject.toml";
       let warnings := warnings ++ warn_if (u "your.email@example.com") content
                         (u "[WARN] pyproject.toml 中的作者邮箱需要更新") in
       let warnings := warnings ++ warn_if (u "yourusername") content
                         (u "[WARN] pyproject.toml 中的 GitHub 用户名需要更新") in
       ret warnings
     else ret warnings);
  warnings <-
    (if path_exists fs "setup.py" then
       content <- open_read fs "setup.py";
       let warnings := warnings ++ warn_if (u "Your Name") content
                         (u "[WARN] setup.py 中的作者信息需要更新") in
       ret warnings
     else ret warnings);
  match warnings with
  | _ :: _ =>
      print_each warnings;;
      ret false
  | [] =>
      print (u "[OK] 元数据检查通过");;
      ret true
  end.

(** ** The runner *)

(** A check function of the list [checks]. *)
Definition check_func : Type := gmap string entry -> Py bool.

(** The loop of [main] over [checks], from the current value of [results]:
    each check runs inside [try], and an exception makes its result
    [False]. *)
Fixpoint checks_loop (fs : gmap string entry) (checks : list (text * check_func))
    (results : list (text * bool)) : Py (list (text * bool)) :=
  match checks with
  | [] => ret results
  | (name, check_func) :: rest =>
      results <-
        try_except
          (result <- check_func fs;
           ret (results ++ [(name, result)]))
          (fun e =>
             print (u "[FAIL] " ++ name ++ u " 检查出错: " ++ exn_str e);;
             ret (results ++ [(name, false)]));
      checks_loop fs rest results
  end.

(** One line of the summary. *)
Definition report_line (name : text) (result : bool) : text :=
  let status := if result then u "[OK] 通过" else u "[FAIL] 失败" in
  name ++ u ": " ++ status.

(** The summary loop of [main] over [results], from the current value of
    [all_passed]. *)
Fixpoint summary_loop (results : list (text * bool)) (all_passed : bool) : Py bool :=
  match results with
  | [] => ret all_passed
  | (name, result) :: rest =>
      print (report_line name result);;
      summary_loop rest (if negb result then false else all_passed)
  end.

Definition checks : list (text * check_func) :=
  [ (u "包结构", check_package_structure);
    (u "版本一致性", check_version_consistency);
    (u "构建文件", check_build_files);
    (u "元数据", check_metadata) ].

(** The generic runner: [main] over any list of checks. *)
Definition main_with (checks : list (text * check_func)) (fs : gmap string entry) : Py Z :=
  print (str_mul (u "=") 50);;
  print (u "swagger-sdk 发布前检查");;
  print (str_mul (u "=") 50);;
  results <- checks_loop fs checks [];
  print (nl ++ str_mul (u "=") 50);;
  print (u "检查结果汇总:");;
  print (str_mul (u "=") 50);;
  all_passed <- summary_loop results true;
  print (nl ++ str_mul (u "=") 50);;
  if all_passed then
    print (u "[OK] 所有检查通过！可以开始构建和发布。");;
    print (nl ++ u "下一步:");;
    print (u "1. 更新 pyproject.toml 和 setup.py 中的作者和 URL 信息");;
    print (u "2. 运行: python -m build");;
    print (u "3. 运行: twine check dist/*");;
    print (u "4. 运行: twine upload dist/*");;
    ret 0%Z
  else
    print (u "[FAIL] 部分检查未通过，请修复后重试。");;
    ret 1%Z.

Definition main (fs : gmap string entry) : Py Z := main_with checks fs.

(** ** Sample working directories *)

(** A line [__version__ = "<v>"] with its newline. *)
Definition version_line (v : text) : text :=
  u "__version__ = " ++ dquote ++ v ++ dquote ++ nl.

(** A line [version = "<v>"] with its newline. *)
Definition toml_version_line (v : text) : text :=
  u "version = " ++ dquote ++ v ++ dquote ++ nl.

(** Scenario A of the specification: every file present, version 1.0.0 in
    both files, no placeholder. *)
Definition fs_complete : gmap string entry :=
  <[ "swagger_sdk/__init__.py" := Readable (u "# sdk" ++ nl ++ version_line (u "1.0.0")) ]>
  (<[ "swagger_sdk/builder.py" := Readable [] ]>
  (<[ "swagger_sdk/models.py" := Readable [] ]>
  (<[ "swagger_sdk/enums.py" := Readable [] ]>
  (<[ "pyproject.toml" := Readable (u "[project]" ++ nl ++ toml_version_line (u "1.0.0")) ]>
  (<[ "setup.py" := Readable (u "setup()" ++ nl) ]>
  (<[ "MANIFEST.in" := Readable [] ]>
  (<[ "LICENSE" := Readable [] ]>
  (<[ "README.md" := Readable [] ]> ∅)))))))).

(** What [check_file_exists] prints for a path. *)
Definition exists_line (fs : gmap string entry) (filepath : string) : text :=
  if path_exists fs filepath then u "[OK] " ++ u filepath ++ u " 存在"
  else u "[FAIL] " ++ u filepath ++ u " 不存在".

(** ** The version rule, read off the loop of [check_version_consistency] *)

(** The line the loop stops at: the first one that starts with
    [__version__]. *)
Definition first_version_line (f : text) : option text :=
  List.find (startswith (u "__version__")) (readlines f).

(** The three [strip] calls of the loop: white space, then double quotes,
    then single quotes. *)
Definition unquote (s : text) : text :=
  strip_chars squote (strip_chars dquote (strip s)).

(** The value the loop takes from a line: [line.split("=")[1]] unquoted,
    when there is such a field. *)
Definition line_value (line : text) : option text :=
  match split (ch "=") line !! 1%nat with
  | Some field => Some (unquote field)
  | None => None
  end.

(** The text before the first [c] of [s], and the text after it. *)
Fixpoint before_first (c : char) (s : text) : text :=
  match s with
  | [] => []
  | x :: s' => if (x =? c)%N then [] else x :: before_first c s'
  end.

Fixpoint after_first (c : char) (s : text) : text :=
  match s with
  | [] => []
  | x :: s' => if (x =? c)%N then s' else after_first c s'
  end.

(** Follows the specification's words: the value of an assignment line is
    the text after "=" minus surrounding quotes and white space. *)
Definition value_after_eq (line : text) : text :=
  unquote (after_first (ch "=") line).

(** The value between the first "=" of a line and its next "=" (or its
    end), unquoted. *)
Definition value_between_eq (line : text) : text :=
  unquote (before_first (ch "=") (after_first (ch "=") line)).

(** The version the check works with: the one the loop returns. *)
Definition extracted_version (fs : gmap string entry) : option text :=
  match fs !! "swagger_sdk/__init__.py" with
  | Some (Readable f) =>
      match outcome_of (version_loop (readlines f)) with
      | Returns (Some v) => Some v
      | _ => None
      end
  | _ => None
  end.

(** The second metadata file holds the pattern [version = "<v>"]. *)
Definition pattern_in_pyproject (fs : gmap string entry) (v : text) : Prop :=
  exists content, fs !! "pyproject.toml" = Some (Readable content) /\
    contains (version_pattern v) content = true.

(** What the check does with a version [v] it has extracted. *)
Definition compare_with_pyproject (fs : gmap string entry) (v : text) : outcome bool :=
  match v with
  | [] => Returns false
  | _ :: _ =>
      match fs !! "pyproject.toml" with
      | None => Returns true
      | Some (Readable content) => Returns (contains (version_pattern v) content)
      | Some (Unopenable msg) => Raises (OSError msg)
      end
  end.

(** The reading of the version check as an equivalence: it returns true
    exactly when the extracted version is found in the pattern of the
    second file. *)
Definition passes_iff_pattern_found (fs : gmap string entry) : Prop :=
  outcome_of (check_version_consistency fs) = Returns true <->
  exists v, extracted_version fs = Some v /\ pattern_in_pyproject fs v.

(** The reading of the version rule with the value taken as all the text
    after "=". *)
Definition extracts_value_after_eq (fs : gmap string entry) : Prop :=
  forall f line,
    fs !! "swagger_sdk/__init__.py" = Some (Readable f) ->
    first_version_line f = Some line ->
    In (ch "=") line ->
    outcome_of (check_version_consistency fs) =
      compare_with_pyproject fs (value_after_eq line).

(** Only [__init__.py], with version 1.0.0; no [pyproject.toml]. *)
Definition fs_init_only : gmap string entry :=
  {[ "swagger_sdk/__init__.py" := Readable (version_line (u "1.0.0")) ]}.

(** [__version__ = ""] in [__init__.py] and [version = ""] in
    [pyproject.toml]. *)
Definition fs_empty_version : gmap string entry :=
  <[ "swagger_sdk/__init__.py" := Readable (version_line []) ]>
  {[ "pyproject.toml" := Readable (toml_version_line []) ]}.

(** A version line with a second "=" in its value, and a [pyproject.toml]
    that holds the part of that value before the second "=". *)
Definition fs_two_eq : gmap string entry :=
  <[ "swagger_sdk/__init__.py" := Readable (version_line (u "1=0")) ]>
  {[ "pyproject.toml" := Readable (toml_version_line (u "1")) ]}.

(** A first file without any version line. *)
Definition fs_no_version : gmap string entry :=
  {[ "swagger_sdk/__init__.py" := Readable (u "# nothing here" ++ nl) ]}.

(** ** The placeholder rule, read off [check_metadata] *)

(** The known placeholders and the two files scanned for them. *)
Definition placeholders : list text :=
  [ u "your.email@example.com"; u "yourusername"; u "Your Name" ].

Definition metadata_files : list string := [ "pyproject.toml"; "setup.py" ].

(** Follows the specification's words: at least one of the known
    placeholders is present in either of the two scanned files. *)
Definition any_placeholder_in_either (fs : gmap string entry) : Prop :=
  exists placeholder path content,
    In placeholder placeholders /\ In path metadata_files /\
    fs !! path = Some (Readable content) /\
    contains placeholder content = true.

Definition fails_iff_any_placeholder (fs : gmap string entry) : Prop :=
  outcome_of (check_metadata fs) = Returns false <-> any_placeholder_in_either fs.

(** What the check looks for: the example email or user name in
    [pyproject.toml], the example author name in [setup.py]. *)
Definition placeholder_left (fs : gmap string entry) : Prop :=
  (exists content, fs !! "pyproject.toml" = Some (Readable content) /\
     (contains (u "your.email@example.com") content = true \/
      contains (u "yourusername") content = true)) \/
  (exists content, fs !! "setup.py" = Some (Readable content) /\
     contains (u "Your Name") content = true).

(** The same two tests as booleans, as [check_metadata] computes them. *)
Definition pyproject_flagged (fs : gmap string entry) : bool :=
  match fs !! "pyproject.toml" with
  | Some (Readable content) =>
      contains (u "your.email@example.com") content || contains (u "yourusername") content
  | _ => false
  end.

Definition setup_flagged (fs : gmap string entry) : bool :=
  match fs !! "setup.py" with
  | Some (Readable content) => contains (u "Your Name") content
  | _ => false
  end.

(** The path is absent or can be opened. *)
Definition openable (fs : gmap string entry) (path : string) : Prop :=
  forall msg, fs !! path <> Some (Unopenable msg).

(** A [setup.py] that still has the example user name in its URL; no
    [pyproject.toml]. *)
Definition fs_username_in_setup : gmap string entry :=
  {[ "setup.py" := Readable (u "url='https://github.com/yourusername/swagger-sdk'," ++ nl) ]}.

(** Scenario D of the specification: the example email is still in
    [pyproject.toml]. *)
Definition fs_placeholder_email : gmap string entry :=
  <[ "pyproject.toml" :=
       Readable (toml_version_line (u "1.0.0") ++ u "email = 'your.email@example.com'" ++ nl) ]>
  fs_complete.

(** ** What the runner records and prints *)

(** The boolean the loop records for a check that has run: what the check
    returned, or false when it raised. *)
Definition passed (m : Py bool) : bool :=
  match outcome_of m with
  | Returns b => b
  | Raises _ => false
  end.

Definition recorded (fs : gmap string entry) (c : text * check_func) : text * bool :=
  (fst c, passed (snd c fs)).

(** The line the handler of the loop prints for an exception. *)
Definition exn_line (name : text) (e : exn) : text :=
  u "[FAIL] " ++ name ++ u " 检查出错: " ++ exn_str e.

(** What running one check inside the loop prints: the output of the check
    and, when it raised, the line of the handler. *)
Definition check_output (fs : gmap string entry) (c : text * check_func) : list text :=
  stdout (snd c fs) ++
  match outcome_of (snd c fs) with
  | Returns _ => []
  | Raises e => [exn_line (fst c) e]
  end.

(** The lines [main] prints around the checks and the summary. *)
Definition banner : list text :=
  [ str_mul (u "=") 50; u "swagger-sdk 发布前检查"; str_mul (u "=") 50 ].

Definition summary_header : list text :=
  [ nl ++ str_mul (u "=") 50; u "检查结果汇总:"; str_mul (u "=") 50 ].

Definition verdict (all_passed : bool) : list text :=
  (nl ++ str_mul (u "=") 50) ::
  if all_passed then
    [ u "[OK] 所有检查通过！可以开始构建和发布。";
      nl ++ u "下一步:";
      u "1. 更新 pyproject.toml 和 setup.py 中的作者和 URL 信息";
      u "2. 运行: python -m build";
      u "3. 运行: twine check dist/*";
      u "4. 运行: twine upload dist/*" ]
  else [ u "[FAIL] 部分检查未通过，请修复后重试。" ].

Definition exit_code (all_passed : bool) : Z := if all_passed then 0%Z else 1%Z.

(** A first file whose version line has no "=": the list index of the loop
    is out of range. *)
Definition fs_no_eq : gmap string entry :=
  <[ "swagger_sdk/__init__.py" := Readable (u "__version__" ++ nl) ]> fs_complete.

(** Scenario C of the specification: 2.0.0 in [__init__.py], 1.0.0 still
    in [pyproject.toml]. *)
Definition fs_version_mismatch : gmap string entry :=
  <[ "swagger_sdk/__init__.py" := Readable (version_line (u "2.0.0")) ]> fs_complete.

(** ** Shapes of version lines and values *)

(** The first and the last character of [v], if any, do not satisfy [p]:
    a [strip] by [p] leaves [v] as it is. *)
Definition ends_free (p : char -> bool) (v : text) : Prop :=
  match v with
  | [] => True
  | c :: _ => p c = false /\ p (List.last v 0%N) = false
  end.

(** A double or a single quote. *)
Definition is_quote (c : char) : bool := existsb (N.eqb c) (dquote ++ squote).

(** A line [__version__ = <q><v><q>] with its newline, for a quote [q]. *)
Definition quoted_version_line (q v : text) : text :=
  u "__version__ = " ++ q ++ v ++ q ++ nl.

(** ** Placeholders found and warnings printed *)

(** The test [placeholder in content] of [check_metadata] on the file at
    [path], false when the file is not there to be read. *)
Definition found (fs : gmap string entry) (path : string) (placeholder : text) : bool :=
  match fs !! path with
  | Some (Readable content) => contains placeholder content
  | _ => false
  end.

(** A [pyproject.toml] with the example email and a [setup.py] that is a
    directory. *)
Definition fs_setup_unopenable : gmap string entry :=
  <[ "pyproject.toml" := Readable (u "email = 'your.email@example.com'" ++ nl) ]>
  {[ "setup.py" := Unopenable (u "[Errno 21] Is a directory: 'setup.py'") ]}.

(** All three placeholders left in place. *)
Definition fs_all_placeholders : gmap string entry :=
  <[ "pyproject.toml" :=
       Readable (u "authors = ['Me <your.email@example.com>']" ++ nl
                 ++ u "url = 'https://github.com/yourusername/x'" ++ nl) ]>
  {[ "setup.py" := Readable (u "author='Your Name'," ++ nl) ]}.

(** The reading of the lenient fallback for any version line: whenever the
    first file holds a line that starts with [__version__] and the second
    file is absent, the check returns true. *)
Definition passes_without_pyproject (fs : gmap string entry) : Prop :=
  forall f line,
    fs !! "swagger_sdk/__init__.py" = Some (Readable f) ->
    first_version_line f = Some line ->
    fs !! "pyproject.toml" = None ->
    outcome_of (check_version_consistency fs) = Returns true.

(** Only [__init__.py], with the version line [__version__ = ""]; no
    [pyproject.toml]. *)
Definition fs_empty_version_only : gmap string entry :=
  {[ "swagger_sdk/__init__.py" := Readable (version_line []) ]}.

(** A complete directory whose [pyproject.toml] cannot be opened. *)
Definition fs_pyproject_unopenable : gmap string entry :=
  <[ "pyproject.toml" := Unopenable (u "[Errno 13] Permission denied: 'pyproject.toml'") ]>
  fs_complete.

(** * Properties *)

(** ** Sanity checks of the primitives and of the scenarios *)

Example u_ascii : u "a=b" = [97; 61; 98]%N.
Proof. reflexivity. Qed.

Example u_cjk : u "存在" = [0x5B58; 0x5728]%N.
Proof. reflexivity. Qed.

Example u_cross : u "✗" = [0x2717]%N.
Proof. reflexivity. Qed.

Example split_two : split (ch "=") (u "k = a=b") = [u "k "; u " a"; u "b"].
Proof. reflexivity. Qed.

Example readlines_two : readlines (u "a" ++ nl ++ nl ++ u "b") = [u "a" ++ nl; nl; u "b"].
Proof. reflexivity. Qed.

Example strip_both : strip_chars squote (strip_chars dquote (strip (u " 'x y' " ++ nl))) = u "x y".
Proof. reflexivity. Qed.

Example scenario_A : outcome_of (main fs_complete) = Returns 0%Z.
Proof. vm_compute. reflexivity. Qed.

Example scenario_B : outcome_of (main (delete "swagger_sdk/models.py" fs_complete)) = Returns 1%Z.
Proof. vm_compute. reflexivity. Qed.

Example scenario_C :
  outcome_of (check_version_consistency fs_version_mismatch) = Returns false /\
  outcome_of (main fs_version_mismatch) = Returns 1%Z.
Proof. split; vm_compute; reflexivity. Qed.

Example scenario_D :
  check_metadata fs_placeholder_email =
    ([nl ++ u "检查元数据..."; u "[WARN] pyproject.toml 中的作者邮箱需要更新"], Returns false) /\
  outcome_of (main fs_placeholder_email) = Returns 1%Z.
Proof. split; vm_compute; reflexivity. Qed.

(** A version line without "=" makes the check raise; the runner records
    the check as failed and prints the message of the exception. *)
Example version_line_without_eq :
  check_version_consistency fs_no_eq = ([nl ++ u "检查版本号一致性..."], Raises IndexError) /\
  outcome_of (main fs_no_eq) = Returns 1%Z /\
  u "[FAIL] 版本一致性 检查出错: list index out of range" ∈ stdout (main fs_no_eq).
Proof.
  split; [vm_compute; reflexivity|]. split; [vm_compute; reflexivity|].
  apply list_elem_of_In. vm_compute. tauto.
Qed.

(** ** Laws of the monad *)

Section Monad_laws.
Context {A B : Type}.

Lemma bind_returns (out : list text) (a : A) (k : A -> Py B) :
  bind (out, Returns a) k = (out ++ stdout (k a), outcome_of (k a)).
Proof. unfold bind. destruct (k a). reflexivity. Qed.

Lemma bind_raises (out : list text) (e : exn) (k : A -> Py B) :
  bind (out, Raises e) k = (out, Raises e).
Proof. reflexivity. Qed.

Lemma bind_ret (a : A) (k : A -> Py B) : bind (ret a) k = k a.
Proof. unfold bind, ret. destruct (k a). reflexivity. Qed.

Lemma bind_raise (e : exn) (k : A -> Py B) : bind (raise e) k = raise e.
Proof. reflexivity. Qed.

Lemma bind_print (s : text) (k : unit -> Py B) :
  bind (print s) k = (s :: stdout (k tt), outcome_of (k tt)).
Proof. unfold bind, print. destruct (k tt). reflexivity. Qed.

Lemma outcome_bind_print (s : text) (k : unit -> Py B) :
  outcome_of (bind (print s) k) = outcome_of (k tt).
Proof. rewrite bind_print. reflexivity. Qed.
End Monad_laws.

Lemma py_eta {A} (m : Py A) : m = (stdout m, outcome_of m).
Proof. destruct m. reflexivity. Qed.

(** ** The file-list checks *)

Lemma check_file_exists_eq fs filepath :
  check_file_exists fs filepath = ([exists_line fs filepath], Returns (path_exists fs filepath)).
Proof.
  unfold check_file_exists, exists_line.
  destruct (path_exists fs filepath); reflexivity.
Qed.

Lemma required_files_loop_eq fs files all_exist :
  required_files_loop fs files all_exist =
    (map (exists_line fs) files, Returns (all_exist && forallb (path_exists fs) files)).
Proof.
  revert all_exist. induction files as [|file rest IH]; intros all_exist; simpl.
  - rewrite andb_true_r. reflexivity.
  - rewrite check_file_exists_eq, bind_returns, IH. simpl.
    destruct (path_exists fs file), all_exist; reflexivity.
Qed.

Lemma path_exists_is_Some fs path : path_exists fs path = true <-> is_Some (fs !! path).
Proof.
  unfold path_exists. destruct (fs !! path) as [x|].
  - split; [eauto | reflexivity].
  - split; [discriminate | intros [x Hx]; discriminate].
Qed.

Lemma forallb_exists_iff fs files :
  forallb (path_exists fs) files = true <-> forall path, In path files -> is_Some (fs !! path).
Proof.
  rewrite forallb_forall. split; intros H path Hin.
  - apply path_exists_is_Some, H, Hin.
  - apply path_exists_is_Some, H, Hin.
Qed.

(** C5. Each of the two file-list checks returns, whatever the working
    directory, and what it returns is true exactly when every path of its
    required-file list exists. *)
Theorem file_list_checks_iff (fs : gmap string entry) :
  (exists b, outcome_of (check_package_structure fs) = Returns b /\
     (b = true <-> forall path, In path package_files -> is_Some (fs !! path))) /\
  (exists b, outcome_of (check_build_files fs) = Returns b /\
     (b = true <-> forall path, In path build_files -> is_Some (fs !! path))).
Proof.
  split.
  - exists (forallb (path_exists fs) package_files). split.
    + unfold check_package_structure.
      rewrite outcome_bind_print, required_files_loop_eq. reflexivity.
    + apply forallb_exists_iff.
  - exists (forallb (path_exists fs) build_files). split.
    + unfold check_build_files.
      rewrite outcome_bind_print, required_files_loop_eq. reflexivity.
    + apply forallb_exists_iff.
Qed.

(** ** The version-consistency check *)

Lemma version_loop_eq (lines : list text) :
  version_loop lines =
    match List.find (startswith (u "__version__")) lines with
    | None => ret None
    | Some line =>
        match line_value line with
        | Some v => ret (Some v)
        | None => raise IndexError
        end
    end.
Proof.
  induction lines as [|line rest IH]; [reflexivity|].
  cbn [version_loop List.find].
  destruct (startswith (u "__version__") line); [|exact IH].
  unfold line_value, index1.
  destruct (split (ch "=") line !! 1%nat); reflexivity.
Qed.

(** The check as a function of the two directory entries it looks at. *)
Lemma check_version_consistency_outcome (fs : gmap string entry) :
  outcome_of (check_version_consistency fs) =
    match fs !! "swagger_sdk/__init__.py" with
    | None => Returns false
    | Some (Unopenable msg) => Raises (OSError msg)
    | Some (Readable f) =>
        match outcome_of (version_loop (readlines f)) with
        | Raises e => Raises e
        | Returns None => Returns false
        | Returns (Some v) => compare_with_pyproject fs v
        end
    end.
Proof.
  unfold check_version_consistency.
  rewrite outcome_bind_print.
  unfold path_exists, open_read, compare_with_pyproject.
  destruct (fs !! "swagger_sdk/__init__.py") as [[f|msg]|]; cbn [negb];
    [| reflexivity | reflexivity].
  rewrite bind_ret.
  destruct (version_loop (readlines f)) as [out [[v|]|e]];
    [| reflexivity | reflexivity].
  rewrite bind_returns. cbn [snd outcome_of stdout fst].
  destruct v as [|c v]; [reflexivity|].
  cbn [not_version default from_option id]. cbv beta zeta.
  rewrite outcome_bind_print.
  destruct (fs !! "pyproject.toml") as [[content|msg]|];
    [| reflexivity | reflexivity].
  rewrite bind_ret.
  destruct (contains (version_pattern (c :: v)) content); reflexivity.
Qed.

Lemma version_loop_first_line (f line v : text) :
  first_version_line f = Some line ->
  line_value line = Some v ->
  version_loop (readlines f) = ret (Some v).
Proof.
  intros Hline Hv. rewrite version_loop_eq.
  unfold first_version_line in Hline. rewrite Hline, Hv. reflexivity.
Qed.

(** C3, as stated, fails: the first file exists and holds the version line
    [__version__ = ""], the second file is absent, and the check returns
    false. *)
Lemma passes_without_pyproject_counterexample :
  ~ passes_without_pyproject fs_empty_version_only.
Proof.
  intros H.
  specialize (H (version_line []) (version_line []) eq_refl eq_refl eq_refl).
  assert (Hcode : outcome_of (check_version_consistency fs_empty_version_only) =
                    Returns false)
    by (vm_compute; reflexivity).
  rewrite Hcode in H. discriminate H.
Qed.

(** C3, amended. When the first metadata file exists, the value of its
    first version line is not empty, and the second metadata file is
    absent, the version-consistency check returns true. *)
Theorem missing_pyproject_passes (fs : gmap string entry) (f line v : text) :
  fs !! "swagger_sdk/__init__.py" = Some (Readable f) ->
  first_version_line f = Some line ->
  line_value line = Some v ->
  v <> [] ->
  fs !! "pyproject.toml" = None ->
  outcome_of (check_version_consistency fs) = Returns true.
Proof.
  intros Hinit Hline Hv Hne Hpy.
  rewrite check_version_consistency_outcome, Hinit.
  rewrite (version_loop_first_line f line v Hline Hv).
  unfold compare_with_pyproject. rewrite Hpy.
  destruct v; [contradiction | reflexivity].
Qed.

Lemma missing_pyproject_passes_witness :
  outcome_of (check_version_consistency fs_init_only) = Returns true.
Proof.
  apply (missing_pyproject_passes fs_init_only
           (version_line (u "1.0.0")) (version_line (u "1.0.0")) (u "1.0.0")).
  - reflexivity.
  - reflexivity.
  - reflexivity.
  - discriminate.
  - reflexivity.
Defined.

(** C10. When the value of the version line of the first metadata file is
    the empty string, the version-consistency check reports the version as
    not found and returns false, whatever the second file holds. *)
Theorem empty_version_not_found (fs : gmap string entry) (f line : text) :
  fs !! "swagger_sdk/__init__.py" = Some (Readable f) ->
  first_version_line f = Some line ->
  line_value line = Some [] ->
  check_version_consistency fs =
    ([nl ++ u "检查版本号一致性..."; u "[FAIL] 在 __init__.py 中未找到 __version__"],
     Returns false).
Proof.
  intros Hinit Hline Hv.
  unfold check_version_consistency, path_exists, open_read.
  cbv zeta. rewrite Hinit. cbn [negb].
  rewrite bind_ret, (version_loop_first_line f line [] Hline Hv), bind_ret.
  reflexivity.
Qed.

Lemma empty_version_not_found_witness :
  line_value (version_line []) = Some [] /\
  check_version_consistency fs_empty_version =
    ([nl ++ u "检查版本号一致性..."; u "[FAIL] 在 __init__.py 中未找到 __version__"],
     Returns false).
Proof.
  split; [reflexivity|].
  apply (empty_version_not_found fs_empty_version (version_line []) (version_line []));
    reflexivity.
Defined.

(** C2, as stated, fails: with a version in the first file and no second
    file the check returns true, and no pattern is found anywhere. *)
Lemma passes_iff_pattern_found_counterexample :
  ~ passes_iff_pattern_found fs_init_only.
Proof.
  intros [Hpass _].
  destruct Hpass as (v & _ & content & Hcontent & _).
  - vm_compute. reflexivity.
  - vm_compute in Hcontent. discriminate Hcontent.
Qed.

(** C2, amended. For every working directory, the version-consistency
    check returns true exactly when a non-empty version is extracted from
    the first metadata file and the second metadata file either is absent
    or holds that version inside the pattern [version = "<v>"]. *)
Theorem version_check_true_iff (fs : gmap string entry) :
  outcome_of (check_version_consistency fs) = Returns true <->
  exists v, extracted_version fs = Some v /\ v <> [] /\
    (fs !! "pyproject.toml" = None \/ pattern_in_pyproject fs v).
Proof.
  rewrite check_version_consistency_outcome.
  unfold extracted_version, pattern_in_pyproject, compare_with_pyproject.
  destruct (fs !! "swagger_sdk/__init__.py") as [[f|msg]|].
  - destruct (outcome_of (version_loop (readlines f))) as [[v|]|e].
    + destruct v as [|c v].
      * split; [discriminate|]. intros (v & Hv & Hne & _).
        injection Hv as <-. contradiction.
      * destruct (fs !! "pyproject.toml") as [[content|msg]|].
        -- split.
           ++ intros H. injection H as H. exists (c :: v).
              split; [reflexivity|]. split; [discriminate|].
              right. exists content. split; [reflexivity | exact H].
           ++ intros (v' & Hv & _ & [Hnone | (content' & Hc & Hin)]).
              ** discriminate Hnone.
              ** injection Hv as <-. injection Hc as <-. rewrite Hin. reflexivity.
        -- split; [discriminate|].
           intros (v' & _ & _ & [Hnone | (content' & Hc & _)]); discriminate.
        -- split; [|reflexivity]. intros _. exists (c :: v).
           split; [reflexivity|]. split; [discriminate|]. left. reflexivity.
    + split; [discriminate|]. intros (v & Hv & _). discriminate Hv.
    + split; [discriminate|]. intros (v & Hv & _). discriminate Hv.
  - split; [discriminate|]. intros (v & Hv & _). discriminate Hv.
  - split; [discriminate|]. intros (v & Hv & _). discriminate Hv.
Qed.

(** ** The value of a version line *)

Lemma split_before_after (c : char) (s : text) :
  split c s =
    before_first c s ::
      (if existsb (fun x => (x =? c)%N) s then split c (after_first c s) else []).
Proof.
  induction s as [|x s IH]; [reflexivity|].
  cbn [split before_first after_first existsb].
  destruct (x =? c)%N; [reflexivity|].
  rewrite IH. reflexivity.
Qed.

Lemma existsb_eqb_In (c : char) (s : text) :
  existsb (fun x => (x =? c)%N) s = true <-> In c s.
Proof.
  rewrite existsb_exists. split.
  - intros (x & Hin & Heq). apply N.eqb_eq in Heq. subst x. exact Hin.
  - intros Hin. exists c. split; [exact Hin | apply N.eqb_refl].
Qed.

(** With a separator in the line, [split(sep)[1]] is the text between its
    first two occurrences; without one, the index is out of range. *)
Lemma split_index1_In (c : char) (s : text) :
  In c s -> split c s !! 1%nat = Some (before_first c (after_first c s)).
Proof.
  intros Hin. apply existsb_eqb_In in Hin.
  rewrite split_before_after, Hin.
  rewrite (split_before_after c (after_first c s)). reflexivity.
Qed.

Lemma split_index1_not_In (c : char) (s : text) :
  ~ In c s -> split c s !! 1%nat = None.
Proof.
  intros Hnin. rewrite split_before_after.
  destruct (existsb (fun x => (x =? c)%N) s) eqn:E; [|reflexivity].
  apply existsb_eqb_In in E. contradiction.
Qed.

Lemma line_value_not_In (line : text) :
  ~ In (ch "=") line -> line_value line = None.
Proof.
  intros Hnin. unfold line_value. rewrite (split_index1_not_In _ _ Hnin). reflexivity.
Qed.

(** A first version line without "=" ends the loop with [IndexError]. *)
Lemma version_loop_without_eq (f line : text) :
  first_version_line f = Some line ->
  ~ In (ch "=") line ->
  version_loop (readlines f) = raise IndexError.
Proof.
  intros Hline Hnin. rewrite version_loop_eq.
  unfold first_version_line in Hline.
  rewrite Hline, (line_value_not_In line Hnin). reflexivity.
Qed.

Lemma line_value_In (line : text) :
  In (ch "=") line -> line_value line = Some (value_between_eq line).
Proof.
  intros Hin. unfold line_value. rewrite (split_index1_In _ _ Hin). reflexivity.
Qed.

(** C6, as stated, fails: for the line [__version__ = "1=0"] the value
    after "=" is [1=0], which the second file does not hold, yet the check
    passes on the [1] it extracted. *)
Lemma extracts_value_after_eq_counterexample :
  ~ extracts_value_after_eq fs_two_eq.
Proof.
  intros H.
  specialize (H (version_line (u "1=0")) (version_line (u "1=0"))).
  assert (Hcode : outcome_of (check_version_consistency fs_two_eq) = Returns true)
    by (vm_compute; reflexivity).
  assert (Hclaim : compare_with_pyproject fs_two_eq
                     (value_after_eq (version_line (u "1=0"))) = Returns false)
    by (vm_compute; reflexivity).
  rewrite Hcode, Hclaim in H.
  assert (Hin : In (ch "=") (version_line (u "1=0"))).
  { apply existsb_eqb_In. vm_compute. reflexivity. }
  discriminate (H eq_refl eq_refl Hin).
Qed.

(** C6, amended. The version-consistency check returns false when the
    first metadata file is absent and when none of its lines starts with
    [__version__]; when the first such line holds a "=", the version is
    the text between that "=" and the next one (or the end of the line)
    minus surrounding white space and quotes, and the check goes on with
    that value. *)
Theorem version_rule (fs : gmap string entry) :
  (fs !! "swagger_sdk/__init__.py" = None ->
     outcome_of (check_version_consistency fs) = Returns false) /\
  (forall f, fs !! "swagger_sdk/__init__.py" = Some (Readable f) ->
     first_version_line f = None ->
     outcome_of (check_version_consistency fs) = Returns false) /\
  (forall f line, fs !! "swagger_sdk/__init__.py" = Some (Readable f) ->
     first_version_line f = Some line ->
     In (ch "=") line ->
     outcome_of (version_loop (readlines f)) = Returns (Some (value_between_eq line)) /\
     outcome_of (check_version_consistency fs) =
       compare_with_pyproject fs (value_between_eq line)).
Proof.
  split; [|split].
  - intros Hinit. rewrite check_version_consistency_outcome, Hinit. reflexivity.
  - intros f Hinit Hnone.
    rewrite check_version_consistency_outcome, Hinit, version_loop_eq.
    unfold first_version_line in Hnone. rewrite Hnone. reflexivity.
  - intros f line Hinit Hline Hin.
    pose proof (version_loop_first_line f line _ Hline (line_value_In line Hin)) as Hloop.
    rewrite check_version_consistency_outcome, Hinit, Hloop.
    split; reflexivity.
Qed.

Lemma version_rule_witness :
  outcome_of (check_version_consistency ∅) = Returns false /\
  outcome_of (check_version_consistency fs_no_version) = Returns false /\
  outcome_of (version_loop (readlines (version_line (u "1=0")))) = Returns (Some (u "1")) /\
  outcome_of (check_version_consistency fs_two_eq) = Returns true.
Proof.
  split; [|split].
  - apply (proj1 (version_rule ∅)). reflexivity.
  - apply (proj1 (proj2 (version_rule fs_no_version)) (u "# nothing here" ++ nl));
      reflexivity.
  - apply (proj2 (proj2 (version_rule fs_two_eq))
             (version_line (u "1=0")) (version_line (u "1=0"))).
    + reflexivity.
    + reflexivity.
    + apply existsb_eqb_In. reflexivity.
Defined.

(** ** The metadata check *)

(** The check as a function of the two directory entries it looks at. *)
Lemma check_metadata_outcome (fs : gmap string entry) :
  outcome_of (check_metadata fs) =
    match fs !! "pyproject.toml", fs !! "setup.py" with
    | Some (Unopenable msg), _ => Raises (OSError msg)
    | _, Some (Unopenable msg) => Raises (OSError msg)
    | _, _ => Returns (negb (pyproject_flagged fs || setup_flagged fs))
    end.
Proof.
  unfold check_metadata. rewrite outcome_bind_print.
  unfold path_exists, open_read, warn_if, pyproject_flagged, setup_flagged.
  destruct (fs !! "pyproject.toml") as [[content|msg]|];
    destruct (fs !! "setup.py") as [[content'|msg']|];
    cbv beta iota zeta delta [bind ret raise];
    try reflexivity;
    try (destruct (contains (u "your.email@example.com") content);
         destruct (contains (u "yourusername") content));
    try destruct (contains (u "Your Name") content');
    reflexivity.
Qed.

Lemma pyproject_flagged_iff (fs : gmap string entry) :
  pyproject_flagged fs = true <->
  exists content, fs !! "pyproject.toml" = Some (Readable content) /\
    (contains (u "your.email@example.com") content = true \/
     contains (u "yourusername") content = true).
Proof.
  unfold pyproject_flagged.
  destruct (fs !! "pyproject.toml") as [[content|msg]|]; split.
  - intros H. exists content. split; [reflexivity|]. apply orb_true_iff, H.
  - intros (c & Heq & H). injection Heq as <-. apply orb_true_iff, H.
  - discriminate.
  - intros (c & Heq & _). discriminate Heq.
  - discriminate.
  - intros (c & Heq & _). discriminate Heq.
Qed.

Lemma setup_flagged_iff (fs : gmap string entry) :
  setup_flagged fs = true <->
  exists content, fs !! "setup.py" = Some (Readable content) /\
    contains (u "Your Name") content = true.
Proof.
  unfold setup_flagged.
  destruct (fs !! "setup.py") as [[content|msg]|]; split.
  - intros H. exists content. split; [reflexivity | exact H].
  - intros (c & Heq & H). injection Heq as <-. exact H.
  - discriminate.
  - intros (c & Heq & _). discriminate Heq.
  - discriminate.
  - intros (c & Heq & _). discriminate Heq.
Qed.

Lemma placeholder_left_iff (fs : gmap string entry) :
  placeholder_left fs <-> pyproject_flagged fs || setup_flagged fs = true.
Proof.
  unfold placeholder_left.
  rewrite orb_true_iff, pyproject_flagged_iff, setup_flagged_iff. reflexivity.
Qed.

(** C7, as stated, fails: the example user name is present in [setup.py],
    one of the two scanned files, and the check returns true. *)
Lemma fails_iff_any_placeholder_counterexample :
  ~ fails_iff_any_placeholder fs_username_in_setup.
Proof.
  intros [_ Hfail].
  assert (Hcode : outcome_of (check_metadata fs_username_in_setup) = Returns true)
    by (vm_compute; reflexivity).
  rewrite Hcode in Hfail.
  assert (Hpresent : any_placeholder_in_either fs_username_in_setup).
  { exists (u "yourusername"), "setup.py"%string,
      (u "url='https://github.com/yourusername/swagger-sdk'," ++ nl).
    split; [right; left; reflexivity|].
    split; [right; left; reflexivity|].
    split; vm_compute; reflexivity. }
  discriminate (Hfail Hpresent).
Qed.

(** C7, amended. For every working directory in which each of the two
    metadata files is absent or can be opened, the metadata check returns;
    it returns false exactly when the example email or the example user
    name is present in [pyproject.toml] or the example author name is
    present in [setup.py], and true otherwise. *)
Theorem check_metadata_iff (fs : gmap string entry) :
  openable fs "pyproject.toml" -> openable fs "setup.py" ->
  exists b, outcome_of (check_metadata fs) = Returns b /\
    (b = false <-> placeholder_left fs) /\
    (b = true <-> ~ placeholder_left fs).
Proof.
  intros Hpy Hsetup.
  exists (negb (pyproject_flagged fs || setup_flagged fs)). split.
  - rewrite check_metadata_outcome.
    destruct (fs !! "pyproject.toml") as [[content|msg]|] eqn:Epy;
      [| destruct (Hpy msg Epy) |];
      (destruct (fs !! "setup.py") as [[content'|msg']|] eqn:Esetup;
         [| destruct (Hsetup msg' Esetup) |]);
      reflexivity.
  - rewrite placeholder_left_iff.
    destruct (pyproject_flagged fs || setup_flagged fs); cbn [negb]; split; split;
      congruence.
Qed.

Lemma check_metadata_iff_witness :
  exists b, outcome_of (check_metadata fs_placeholder_email) = Returns b /\
    (b = false <-> placeholder_left fs_placeholder_email) /\
    (b = true <-> ~ placeholder_left fs_placeholder_email).
Proof.
  apply (check_metadata_iff fs_placeholder_email).
  - intros msg. vm_compute. discriminate.
  - intros msg. vm_compute. discriminate.
Defined.

(** C9. When neither [pyproject.toml] nor [setup.py] exists, the metadata
    check prints no warning and returns true. *)
Theorem check_metadata_no_files (fs : gmap string entry) :
  fs !! "pyproject.toml" = None ->
  fs !! "setup.py" = None ->
  check_metadata fs = ([nl ++ u "检查元数据..."; u "[OK] 元数据检查通过"], Returns true).
Proof.
  intros Hpy Hsetup. unfold check_metadata, path_exists.
  rewrite Hpy, Hsetup. reflexivity.
Qed.

Lemma check_metadata_no_files_witness :
  check_metadata fs_init_only =
    ([nl ++ u "检查元数据..."; u "[OK] 元数据检查通过"], Returns true).
Proof.
  apply (check_metadata_no_files fs_init_only); reflexivity.
Defined.

(** ** The runner *)

Section Runner.
Variable fs : gmap string entry.

Lemma checks_loop_eq (cs : list (text * check_func)) (results : list (text * bool)) :
  checks_loop fs cs results =
    (flat_map (check_output fs) cs, Returns (results ++ map (recorded fs) cs)).
Proof.
  revert results. induction cs as [|[name f] cs IH]; intros results.
  - cbn. rewrite app_nil_r. reflexivity.
  - cbn [checks_loop flat_map map].
    unfold check_output at 1, recorded at 1, passed. cbn [fst snd].
    rewrite (py_eta (f fs)) at 1.
    destruct (outcome_of (f fs)) as [b|e].
    + rewrite bind_returns. cbn [try_except ret stdout outcome_of fst snd].
      rewrite bind_returns, IH. cbn [stdout outcome_of fst snd].
      rewrite !app_nil_r, <- (app_assoc results). reflexivity.
    + rewrite bind_raises. cbn [try_except].
      rewrite bind_print. cbn [ret stdout outcome_of fst snd].
      rewrite bind_returns, IH. cbn [stdout outcome_of fst snd].
      rewrite <- (app_assoc results). reflexivity.
Qed.

Lemma summary_loop_eq (results : list (text * bool)) (all_passed : bool) :
  summary_loop results all_passed =
    (map (fun r => report_line (fst r) (snd r)) results,
     Returns (all_passed && forallb snd results)).
Proof.
  revert all_passed. induction results as [|[name b] results IH]; intros all_passed.
  - cbn. rewrite andb_true_r. reflexivity.
  - cbn [summary_loop map forallb fst snd].
    rewrite bind_print, IH. cbn [stdout outcome_of fst snd].
    destruct b, all_passed; reflexivity.
Qed.

Lemma main_with_eq (cs : list (text * check_func)) :
  let results := map (recorded fs) cs in
  main_with cs fs =
    (banner ++ flat_map (check_output fs) cs ++ summary_header
       ++ map (fun r => report_line (fst r) (snd r)) results
       ++ verdict (forallb snd results),
     Returns (exit_code (forallb snd results))).
Proof.
  intros results. unfold main_with.
  do 3 rewrite bind_print. rewrite checks_loop_eq, bind_returns. cbn [app].
  do 3 rewrite bind_print. rewrite summary_loop_eq, bind_returns, bind_print.
  cbn [stdout outcome_of fst snd andb]. fold results.
  unfold banner, summary_header, verdict, exit_code.
  destruct (forallb snd results);
    cbn [stdout outcome_of fst snd bind print ret app];
    rewrite <- ?app_assoc; reflexivity.
Qed.
End Runner.

Lemma passed_true_iff (m : Py bool) : passed m = true <-> outcome_of m = Returns true.
Proof.
  unfold passed. destruct (outcome_of m) as [[|]|e]; split; congruence.
Qed.

Lemma passed_false_iff (m : Py bool) :
  passed m = false <-> outcome_of m = Returns false \/ exists e, outcome_of m = Raises e.
Proof.
  unfold passed. destruct (outcome_of m) as [[|]|e]; split;
    try congruence; eauto; intros [H | [e' H]]; congruence.
Qed.

(** C4. Whatever the list of checks, the loop of the runner ends by
    returning: it records one result per check, in order; a check that
    raises is recorded as failed, with the line of the handler printed
    after its output; and every check after it is still run, its output
    printed and its own result recorded. *)
Theorem checks_loop_catches (fs : gmap string entry) (cs : list (text * check_func)) :
  exists results,
    checks_loop fs cs [] = (flat_map (check_output fs) cs, Returns results) /\
    length results = length cs /\
    forall (i : nat) (name : text) (f : check_func), cs !! i = Some (name, f) ->
      results !! i = Some (name, passed (f fs)) /\
      (forall e, outcome_of (f fs) = Raises e ->
         results !! i = Some (name, false) /\
         exn_line name e ∈ check_output fs (name, f)).
Proof.
  exists (map (recorded fs) cs). split; [apply checks_loop_eq|].
  split; [apply length_map|].
  intros i name f Hi.
  assert (Hrec : map (recorded fs) cs !! i = Some (name, passed (f fs))).
  { change (map (recorded fs) cs) with (recorded fs <$> cs).
    rewrite list_lookup_fmap, Hi. reflexivity. }
  split; [exact Hrec|].
  intros e He. split.
  - rewrite Hrec. unfold passed. rewrite He. reflexivity.
  - unfold check_output. cbn [fst snd]. rewrite He.
    apply elem_of_app. right. apply list_elem_of_singleton. reflexivity.
Qed.

Lemma checks_loop_catches_witness :
  exists results,
    outcome_of (checks_loop fs_no_eq checks []) = Returns results /\
    results !! 1%nat = Some (u "版本一致性", false) /\
    results !! 3%nat = Some (u "元数据", true).
Proof.
  destruct (checks_loop_catches fs_no_eq checks) as (results & Heq & _ & Hrec).
  exists results. split; [rewrite Heq; reflexivity|]. split.
  - apply (Hrec 1%nat (u "版本一致性") check_version_consistency eq_refl) with IndexError.
    vm_compute. reflexivity.
  - apply (Hrec 3%nat (u "元数据") check_metadata eq_refl).
Defined.

(** C8. The runner runs the four checks in their listed order (package
    structure, version consistency, build files, metadata), records exactly
    one result per check, and prints one report line per result (the
    label of the check, a colon, and the pass or fail marker), in that
    order, after the output of the checks and before it returns the exit
    code. *)
Theorem main_report (fs : gmap string entry) :
  let results :=
    [ (u "包结构", passed (check_package_structure fs));
      (u "版本一致性", passed (check_version_consistency fs));
      (u "构建文件", passed (check_build_files fs));
      (u "元数据", passed (check_metadata fs)) ] in
  outcome_of (checks_loop fs checks []) = Returns results /\
  main fs =
    (banner
       ++ check_output fs (u "包结构", check_package_structure)
       ++ check_output fs (u "版本一致性", check_version_consistency)
       ++ check_output fs (u "构建文件", check_build_files)
       ++ check_output fs (u "元数据", check_metadata)
       ++ summary_header
       ++ map (fun r : text * bool =>
                 fst r ++ u ": " ++ (if snd r then u "[OK] 通过" else u "[FAIL] 失败"))
              results
       ++ verdict (forallb snd results),
     Returns (exit_code (forallb snd results))).
Proof.
  intros results. split.
  - rewrite checks_loop_eq. reflexivity.
  - unfold main. rewrite main_with_eq.
    unfold checks. cbn [flat_map map recorded fst snd]. unfold report_line.
    rewrite app_nil_r, <- !app_assoc. reflexivity.
Qed.

Lemma forallb_snd_recorded (fs : gmap string entry) (cs : list (text * check_func)) :
  forallb snd (map (recorded fs) cs) = forallb (fun c => passed (snd c fs)) cs.
Proof.
  induction cs as [|c cs IH]; [reflexivity|].
  cbn [map forallb recorded snd]. rewrite IH. reflexivity.
Qed.

(** C1. The runner returns an exit code; the code is 1 exactly when at
    least one of the four checks returned false or raised, and 0 exactly
    when all four returned true. *)
Theorem exit_code_iff (fs : gmap string entry) :
  exists code, outcome_of (main fs) = Returns code /\
    (code = 1%Z <->
       exists c, In c (map snd checks) /\
         (outcome_of (c fs) = Returns false \/ exists e, outcome_of (c fs) = Raises e)) /\
    (code = 0%Z <->
       forall c, In c (map snd checks) -> outcome_of (c fs) = Returns true).
Proof.
  unfold main. rewrite main_with_eq. cbn [outcome_of snd].
  eexists. split; [reflexivity|].
  rewrite forallb_snd_recorded.
  destruct (forallb (fun c => passed (snd c fs)) checks) eqn:Hall; cbn [exit_code].
  - rewrite forallb_forall in Hall. split; split; try discriminate; try reflexivity.
    + intros (c & Hin & Hfail). apply in_map_iff in Hin as ([name c'] & <- & Hin).
      apply passed_false_iff in Hfail. specialize (Hall _ Hin). cbn [snd] in *. congruence.
    + intros _ c Hin. apply in_map_iff in Hin as ([name c'] & <- & Hin).
      apply passed_true_iff, (Hall _ Hin).
  - assert (Hex : exists c, In c (map snd checks) /\ passed (c fs) = false).
    { apply not_true_iff_false in Hall.
      destruct (existsb (fun c => negb (passed (snd c fs))) checks) eqn:Hex.
      - apply existsb_exists in Hex as (c & Hin & Hc). exists (snd c).
        split; [apply in_map, Hin | apply negb_true_iff, Hc].
      - exfalso. apply Hall, forallb_forall. intros c Hin.
        destruct (passed (snd c fs)) eqn:Hp; [reflexivity|].
        assert (Ht : existsb (fun c => negb (passed (snd c fs))) checks = true)
          by (apply existsb_exists; exists c; rewrite Hp; auto).
        congruence. }
    destruct Hex as (c & Hin & Hc). split; split; try discriminate; try reflexivity.
    + intros _. exists c. split; [exact Hin | apply passed_false_iff, Hc].
    + intros Hall'. apply Hall', passed_true_iff in Hin. congruence.
Qed.

(** * Further properties of the script *)

(** ** Lines of a text file *)

Lemma readlines_nonempty (c : char) (s : text) : readlines (c :: s) <> [].
Proof.
  cbn [readlines]. destruct (c =? 10)%N; [discriminate|].
  destruct (readlines s); discriminate.
Qed.

(** The lines iterated over partition the file: concatenated they give
    the contents back, none is empty, a newline can only be the last
    character of a line, and every line but the last ends with one. *)
Theorem readlines_partition (s : text) :
  concat (readlines s) = s /\
  Forall (fun line => line <> [] /\ ~ In 10%N (removelast line)) (readlines s) /\
  (forall pre line post, readlines s = pre ++ line :: post -> post <> [] ->
     exists body, line = body ++ nl).
Proof.
  split; [|split].
  - induction s as [|c s IH]; [reflexivity|].
    cbn [readlines]. destruct (c =? 10)%N.
    + cbn [concat app]. rewrite IH. reflexivity.
    + destruct (readlines s) as [|line lines].
      * cbn in IH. subst s. reflexivity.
      * cbn [concat] in *. rewrite <- IH. reflexivity.
  - induction s as [|c s IH]; [constructor|].
    cbn [readlines]. destruct (c =? 10)%N eqn:Ec.
    + constructor; [|exact IH]. split; [discriminate | intros []].
    + destruct (readlines s) as [|line lines].
      * constructor; [|constructor]. split; [discriminate | intros []].
      * inversion IH as [|? ? [Hne Hnl] Hrest]; subst.
        constructor; [|exact Hrest]. split; [discriminate|].
        destruct line as [|c' line]; [contradiction|].
        change (removelast (c :: c' :: line)) with (c :: removelast (c' :: line)).
        intros [Hc | Hin]; [|exact (Hnl Hin)].
        subst c. discriminate Ec.
  - induction s as [|c s IH]; intros pre line post Heq Hpost.
    + destruct pre; discriminate Heq.
    + cbn [readlines] in Heq. destruct (c =? 10)%N eqn:Ec.
      * apply N.eqb_eq in Ec. subst c.
        destruct pre as [|p pre]; cbn [app] in Heq; injection Heq as Hl Hrest.
        -- exists []. subst line. reflexivity.
        -- exact (IH pre line post Hrest Hpost).
      * destruct (readlines s) as [|line0 lines].
        -- destruct pre as [|p pre]; cbn [app] in Heq; injection Heq as Hl Hrest.
           ++ subst post. contradiction.
           ++ destruct pre; discriminate Hrest.
        -- destruct pre as [|p pre]; cbn [app] in Heq; injection Heq as Hl Hrest.
           ++ destruct (IH [] line0 lines eq_refl) as [body Hbody].
              { subst post. exact Hpost. }
              exists (c :: body). subst line line0. reflexivity.
           ++ apply (IH (line0 :: pre) line post); [|exact Hpost].
              cbn [app]. rewrite Hrest. reflexivity.
Qed.

Lemma readlines_line_app (a rest : text) :
  ~ In 10%N a -> readlines (a ++ nl ++ rest) = (a ++ nl) :: readlines rest.
Proof.
  induction a as [|c a IH]; intros Hnl; [reflexivity|].
  cbn [app readlines].
  destruct (c =? 10)%N eqn:Ec.
  - apply N.eqb_eq in Ec. subst c. destruct Hnl. left. reflexivity.
  - rewrite IH; [reflexivity|]. intros Hin. apply Hnl. right. exact Hin.
Qed.

Lemma readlines_app_nl (h s : text) :
  readlines ((h ++ nl) ++ s) = readlines (h ++ nl) ++ readlines s.
Proof.
  induction h as [|c h IH]; [reflexivity|].
  cbn [app readlines]. destruct (c =? 10)%N.
  - rewrite IH. reflexivity.
  - rewrite IH.
    destruct (readlines (h ++ nl)) as [|line lines] eqn:E; [|reflexivity].
    destruct h; exfalso; exact (readlines_nonempty _ _ E).
Qed.

Lemma find_app {A} (p : A -> bool) (l1 l2 : list A) :
  List.find p (l1 ++ l2) =
    match List.find p l1 with
    | Some x => Some x
    | None => List.find p l2
    end.
Proof.
  induction l1 as [|x l1 IH]; [reflexivity|].
  cbn [app List.find]. destruct (p x); [reflexivity | exact IH].
Qed.

(** ** [strip] *)

Section Strip.
Variable p : char -> bool.

Lemma lstrip_by_all (a s : text) :
  forallb p a = true -> lstrip_by p (a ++ s) = lstrip_by p s.
Proof.
  induction a as [|c a IH]; [reflexivity|].
  cbn [forallb app lstrip_by]. intros H. apply andb_true_iff in H as [Hc Ha].
  rewrite Hc. exact (IH Ha).
Qed.

Lemma lstrip_by_In (x : char) (s : text) : In x (lstrip_by p s) -> In x s.
Proof.
  induction s as [|c s IH]; [intros []|].
  cbn [lstrip_by]. destruct (p c); [|exact id].
  intros H. right. exact (IH H).
Qed.

Lemma strip_by_In (x : char) (s : text) : In x (strip_by p s) -> In x s.
Proof.
  unfold strip_by, rstrip_by. intros H.
  apply lstrip_by_In, in_rev, lstrip_by_In, in_rev. exact H.
Qed.

Lemma forallb_rev_true (b : text) : forallb p b = true -> forallb p (rev b) = true.
Proof.
  rewrite !forallb_forall. intros H x Hin. apply H, in_rev, Hin.
Qed.

Lemma strip_by_wrapped (a v b : text) :
  forallb p a = true -> forallb p b = true -> ends_free p v ->
  strip_by p (a ++ v ++ b) = v.
Proof.
  intros Ha Hb Hv. unfold strip_by, rstrip_by.
  rewrite (lstrip_by_all a _ Ha).
  destruct v as [|c v].
  - cbn [app]. rewrite <- (app_nil_r b), (lstrip_by_all b [] Hb). reflexivity.
  - destruct Hv as [Hc Hlast].
    cbn [app lstrip_by]. rewrite Hc.
    change (c :: v ++ b) with ((c :: v) ++ b).
    rewrite rev_app_distr, (lstrip_by_all _ _ (forallb_rev_true b Hb)).
    assert (Hne : c :: v <> []) by discriminate.
    assert (Hrev : rev (c :: v) = List.last (c :: v) 0%N :: rev (removelast (c :: v))).
    { rewrite (app_removelast_last 0%N Hne) at 1. rewrite rev_app_distr. reflexivity. }
    rewrite Hrev. cbn [lstrip_by]. rewrite Hlast, <- Hrev. apply rev_involutive.
Qed.
End Strip.

(** ** Fields of a line *)

Lemma before_first_not_In (c : char) (s : text) : ~ In c s -> before_first c s = s.
Proof.
  induction s as [|x s IH]; intros Hnin; [reflexivity|].
  cbn [before_first]. destruct (x =? c)%N eqn:E.
  - apply N.eqb_eq in E. subst x. destruct Hnin. left. reflexivity.
  - rewrite IH; [reflexivity|]. intros Hin. apply Hnin. right. exact Hin.
Qed.

Lemma before_first_no_sep (c : char) (s : text) : ~ In c (before_first c s).
Proof.
  induction s as [|x s IH]; [intros []|].
  cbn [before_first]. destruct (x =? c)%N eqn:E; [intros []|].
  intros [Hx | Hin]; [|exact (IH Hin)].
  subst x. rewrite N.eqb_refl in E. discriminate E.
Qed.

Lemma after_first_app (c : char) (k t : text) :
  ~ In c k -> after_first c (k ++ c :: t) = t.
Proof.
  induction k as [|x k IH]; intros Hnin.
  - cbn [app after_first]. rewrite N.eqb_refl. reflexivity.
  - cbn [app after_first]. destruct (x =? c)%N eqn:E.
    + apply N.eqb_eq in E. subst x. destruct Hnin. left. reflexivity.
    + apply IH. intros Hin. apply Hnin. right. exact Hin.
Qed.

Lemma is_quote_false (c : char) :
  is_quote c = false ->
  existsb (N.eqb c) dquote = false /\ existsb (N.eqb c) squote = false.
Proof.
  unfold is_quote, dquote, squote. cbn [existsb app].
  destruct (c =? 34)%N, (c =? 39)%N; cbn [orb]; intros H; split;
    solve [reflexivity | discriminate H].
Qed.

Lemma ends_free_quote (v : text) :
  ends_free is_quote v ->
  ends_free (fun c => existsb (N.eqb c) dquote) v /\
  ends_free (fun c => existsb (N.eqb c) squote) v.
Proof.
  destruct v as [|c v]; [split; exact I|].
  intros [Hc Hlast].
  apply is_quote_false in Hc as [Hc1 Hc2].
  apply is_quote_false in Hlast as [Hl1 Hl2].
  split; split; assumption.
Qed.

Lemma ends_free_wrapped (p : char -> bool) (x : char) (v : text) :
  p x = false -> ends_free p ([x] ++ v ++ [x]).
Proof.
  intros Hx. cbn [app ends_free]. split; [exact Hx|].
  change (x :: v ++ [x]) with ((x :: v) ++ [x]). rewrite last_last. exact Hx.
Qed.

(** The three [strip] calls on a quoted value between white space. *)
Lemma unquote_quoted (q v : text) :
  q = dquote \/ q = squote ->
  ends_free is_quote v ->
  unquote (u " " ++ q ++ v ++ q ++ nl) = v.
Proof.
  intros Hq Hv. destruct (ends_free_quote v Hv) as [Hd Hs].
  unfold unquote, strip, strip_chars.
  replace (u " " ++ q ++ v ++ q ++ nl) with (u " " ++ (q ++ v ++ q) ++ nl)
    by (rewrite <- !app_assoc; reflexivity).
  destruct Hq as [-> | ->].
  - rewrite strip_by_wrapped;
      [| reflexivity | reflexivity | apply (ends_free_wrapped isspace 34%N); reflexivity].
    rewrite strip_by_wrapped; [| reflexivity | reflexivity | exact Hd].
    rewrite <- (app_nil_r v) at 1.
    apply (strip_by_wrapped _ [] v []); [reflexivity | reflexivity | exact Hs].
  - rewrite strip_by_wrapped;
      [| reflexivity | reflexivity | apply (ends_free_wrapped isspace 39%N); reflexivity].
    rewrite <- (app_nil_r (squote ++ v ++ squote)) at 1.
    rewrite (strip_by_wrapped _ [] (squote ++ v ++ squote) []);
      [| reflexivity | reflexivity
       | apply (ends_free_wrapped (fun c => existsb (N.eqb c) dquote) 39%N); reflexivity].
    apply strip_by_wrapped; [reflexivity | reflexivity | exact Hs].
Qed.

Lemma not_In_literal (c : char) (k : text) :
  existsb (fun x => (x =? c)%N) k = false -> ~ In c k.
Proof.
  intros H Hin. apply existsb_eqb_In in Hin. congruence.
Qed.

Lemma not_In_quote (c : char) (q : text) :
  q = dquote \/ q = squote -> c <> 34%N -> c <> 39%N -> ~ In c q.
Proof.
  intros [-> | ->] H34 H39 [Hin | []]; congruence.
Qed.

Lemma quoted_version_line_fields (q v : text) :
  quoted_version_line q v = u "__version__ " ++ ch "=" :: (u " " ++ q ++ v ++ q ++ nl).
Proof. reflexivity. Qed.

Lemma line_value_quoted (q v : text) :
  q = dquote \/ q = squote ->
  ~ In (ch "=") v ->
  ends_free is_quote v ->
  line_value (quoted_version_line q v) = Some v.
Proof.
  intros Hq Heq Hv.
  assert (Hq' : ~ In (ch "=") q) by (apply (not_In_quote _ _ Hq); discriminate).
  assert (Hfield : ~ In (ch "=") (u " " ++ q ++ v ++ q ++ nl)).
  { rewrite !in_app_iff. intros [H | [H | [H | [H | H]]]]; try contradiction.
    - revert H. apply not_In_literal. reflexivity.
    - revert H. apply not_In_literal. reflexivity. }
  rewrite line_value_In.
  - unfold value_between_eq. rewrite quoted_version_line_fields.
    rewrite after_first_app by (apply not_In_literal; reflexivity).
    rewrite (before_first_not_In _ _ Hfield), (unquote_quoted q v Hq Hv). reflexivity.
  - rewrite quoted_version_line_fields. apply in_app_iff. right. left. reflexivity.
Qed.

Lemma startswith_quoted_version_line (q v : text) :
  startswith (u "__version__") (quoted_version_line q v) = true.
Proof. reflexivity. Qed.

(** The loop on a file whose first version line is a quoted assignment. *)
Lemma version_loop_quoted (header q v rest : text) :
  header = [] \/ (exists h, header = h ++ nl) ->
  first_version_line header = None ->
  q = dquote \/ q = squote ->
  ~ In (ch "=") v -> ~ In 10%N v ->
  ends_free is_quote v ->
  version_loop (readlines (header ++ quoted_version_line q v ++ rest)) = ret (Some v).
Proof.
  intros Hheader Hnone Hq Heq Hnl Hv.
  assert (Hq' : ~ In 10%N q) by (apply (not_In_quote _ _ Hq); discriminate).
  assert (Hline : readlines (quoted_version_line q v ++ rest) =
                    quoted_version_line q v :: readlines rest).
  { unfold quoted_version_line.
    replace ((u "__version__ = " ++ q ++ v ++ q ++ nl) ++ rest)
      with ((u "__version__ = " ++ q ++ v ++ q) ++ nl ++ rest)
      by (rewrite <- !app_assoc; reflexivity).
    rewrite readlines_line_app.
    - rewrite <- !app_assoc. reflexivity.
    - rewrite !in_app_iff. intros [H | [H | [H | H]]]; try contradiction.
      revert H. apply not_In_literal. reflexivity. }
  assert (Hlines : exists lines, List.find (startswith (u "__version__")) lines = None /\
            readlines (header ++ quoted_version_line q v ++ rest) =
              lines ++ quoted_version_line q v :: readlines rest).
  { destruct Hheader as [-> | [h ->]].
    - exists []. split; [reflexivity | exact Hline].
    - exists (readlines (h ++ nl)). split; [exact Hnone|].
      rewrite readlines_app_nl, Hline. reflexivity. }
  destruct Hlines as (lines & Hfind & ->).
  rewrite version_loop_eq, find_app, Hfind.
  cbn [List.find]. rewrite startswith_quoted_version_line.
  rewrite (line_value_quoted q v Hq Heq Hv). reflexivity.
Qed.

(** ** Substrings *)

Lemma startswith_app (n b : text) : startswith n (n ++ b) = true.
Proof.
  induction n as [|c n IH]; [reflexivity|].
  cbn [app startswith]. rewrite N.eqb_refl. exact IH.
Qed.

Lemma contains_unfold (n h : text) :
  contains n h =
    startswith n h || match h with [] => false | _ :: h' => contains n h' end.
Proof. destruct h; reflexivity. Qed.

Lemma contains_app (a n b : text) : contains n (a ++ n ++ b) = true.
Proof.
  induction a as [|c a IH].
  - cbn [app]. rewrite contains_unfold, startswith_app. reflexivity.
  - cbn [app contains]. rewrite IH. apply orb_true_r.
Qed.

(** ** What the version check extracts *)

(** The version the check extracts never contains "=": a version that
    holds one cannot be read back from the first metadata file. *)
Theorem extracted_version_no_eq (fs : gmap string entry) (v : text) :
  extracted_version fs = Some v -> ~ In (ch "=") v.
Proof.
  unfold extracted_version.
  destruct (fs !! "swagger_sdk/__init__.py") as [[f|msg]|]; try discriminate.
  rewrite version_loop_eq.
  destruct (List.find (startswith (u "__version__")) (readlines f)) as [line|];
    [|discriminate].
  destruct (in_dec N.eq_dec (ch "=") line) as [Hin | Hnin].
  - rewrite (line_value_In line Hin). cbn [outcome_of ret snd].
    intros H. injection H as <-. unfold value_between_eq, unquote, strip, strip_chars.
    intros Hv. do 3 apply strip_by_In in Hv.
    exact (before_first_no_sep _ _ Hv).
  - rewrite (line_value_not_In line Hnin). discriminate.
Qed.

Lemma extracted_version_no_eq_witness : ~ In (ch "=") (u "1").
Proof.
  apply (extracted_version_no_eq fs_two_eq). reflexivity.
Defined.

(** A quoted assignment is read back: from a first file whose first version
    line is [__version__ = "<v>"] (or with single quotes), where [v] holds
    no "=" and no newline and neither starts nor ends with a quote, the
    check extracts exactly [v]. *)
Theorem quoted_version_round_trip (fs : gmap string entry) (header q v rest : text) :
  fs !! "swagger_sdk/__init__.py" =
    Some (Readable (header ++ quoted_version_line q v ++ rest)) ->
  header = [] \/ (exists h, header = h ++ nl) ->
  first_version_line header = None ->
  q = dquote \/ q = squote ->
  ~ In (ch "=") v -> ~ In 10%N v ->
  ends_free is_quote v ->
  extracted_version fs = Some v.
Proof.
  intros Hinit Hheader Hnone Hq Heq Hnl Hv.
  unfold extracted_version. rewrite Hinit.
  rewrite (version_loop_quoted header q v rest Hheader Hnone Hq Heq Hnl Hv).
  reflexivity.
Qed.

Lemma quoted_version_round_trip_witness :
  extracted_version fs_complete = Some (u "1.0.0").
Proof.
  apply (quoted_version_round_trip fs_complete (u "# sdk" ++ nl) dquote (u "1.0.0") []).
  - reflexivity.
  - right. exists (u "# sdk"). reflexivity.
  - reflexivity.
  - left. reflexivity.
  - apply not_In_literal. reflexivity.
  - apply not_In_literal. reflexivity.
  - split; reflexivity.
Defined.

(** Consistent files pass: when the first version line of [__init__.py]
    is a quoted assignment of a non-empty [v] (no "=", no newline, no
    quote at either end) and [pyproject.toml] holds [version = "<v>"]
    anywhere, the version-consistency check returns true. *)
Theorem consistent_versions_pass (fs : gmap string entry)
    (header q v rest before after : text) :
  fs !! "swagger_sdk/__init__.py" =
    Some (Readable (header ++ quoted_version_line q v ++ rest)) ->
  header = [] \/ (exists h, header = h ++ nl) ->
  first_version_line header = None ->
  q = dquote \/ q = squote ->
  v <> [] ->
  ~ In (ch "=") v -> ~ In 10%N v ->
  ends_free is_quote v ->
  fs !! "pyproject.toml" = Some (Readable (before ++ version_pattern v ++ after)) ->
  outcome_of (check_version_consistency fs) = Returns true.
Proof.
  intros Hinit Hheader Hnone Hq Hne Heq Hnl Hv Hpy.
  rewrite check_version_consistency_outcome, Hinit.
  rewrite (version_loop_quoted header q v rest Hheader Hnone Hq Heq Hnl Hv).
  cbn [outcome_of ret snd]. unfold compare_with_pyproject.
  destruct v as [|c v]; [contradiction|].
  rewrite Hpy, contains_app. reflexivity.
Qed.

Lemma consistent_versions_pass_witness :
  outcome_of (check_version_consistency fs_complete) = Returns true.
Proof.
  apply (consistent_versions_pass fs_complete
           (u "# sdk" ++ nl) dquote (u "1.0.0") [] (u "[project]" ++ nl) nl).
  - reflexivity.
  - right. exists (u "# sdk"). reflexivity.
  - reflexivity.
  - left. reflexivity.
  - discriminate.
  - apply not_In_literal. reflexivity.
  - apply not_In_literal. reflexivity.
  - split; reflexivity.
  - reflexivity.
Defined.

(** ** Reports of the file-list checks *)

(** Both file-list checks print, after their heading, exactly one line per
    required file, in the order of the list: a missing file does not stop
    the check, and every missing file is reported. *)
Theorem file_list_checks_report (fs : gmap string entry) :
  stdout (check_package_structure fs) =
    (nl ++ u "检查包结构...") :: map (exists_line fs) package_files /\
  stdout (check_build_files fs) =
    (nl ++ u "检查构建文件...") :: map (exists_line fs) build_files /\
  forall path, In path (package_files ++ build_files) ->
    (fs !! path = None <->
       In (u "[FAIL] " ++ u path ++ u " 不存在")
          (stdout (check_package_structure fs) ++ stdout (check_build_files fs))).
Proof.
  assert (Hp : stdout (check_package_structure fs) =
                 (nl ++ u "检查包结构...") :: map (exists_line fs) package_files).
  { unfold check_package_structure. rewrite bind_print, required_files_loop_eq.
    reflexivity. }
  assert (Hb : stdout (check_build_files fs) =
                 (nl ++ u "检查构建文件...") :: map (exists_line fs) build_files).
  { unfold check_build_files. rewrite bind_print, required_files_loop_eq.
    reflexivity. }
  split; [exact Hp|]. split; [exact Hb|].
  intros path Hin. rewrite Hp, Hb. split.
  - intros Hnone.
    assert (Hline : exists_line fs path = u "[FAIL] " ++ u path ++ u " 不存在")
      by (unfold exists_line, path_exists; rewrite Hnone; reflexivity).
    rewrite <- Hline.
    apply in_app_iff in Hin as [Hin | Hin].
    + apply in_app_iff. left. right. apply in_map, Hin.
    + apply in_app_iff. right. right. apply in_map, Hin.
  - intros Hfail. destruct (fs !! path) as [e|] eqn:E; [exfalso | reflexivity].
    assert (Hok : forall p, is_Some (fs !! p) ->
              exists_line fs p <> u "[FAIL] " ++ u path ++ u " 不存在").
    { intros p [x Hx]. unfold exists_line, path_exists. rewrite Hx. discriminate. }
    assert (Hmiss : forall p, In p (package_files ++ build_files) -> fs !! p = None ->
              exists_line fs p <> u "[FAIL] " ++ u path ++ u " 不存在").
    { intros p Hp' Hnone Heq. unfold exists_line, path_exists in Heq.
      rewrite Hnone in Heq.
      assert (p = path); [|subst p; congruence].
      clear - Hp' Hin Heq.
      cbn [package_files build_files app In] in Hp', Hin.
      repeat (destruct Hp' as [<- | Hp']); try contradiction;
        repeat (destruct Hin as [<- | Hin]); try contradiction;
        first [reflexivity | vm_compute in Heq; discriminate Heq]. }
    assert (Hall : forall p, In p (package_files ++ build_files) ->
              exists_line fs p <> u "[FAIL] " ++ u path ++ u " 不存在").
    { intros p Hp'. destruct (fs !! p) eqn:Ep; [apply Hok; eauto | apply Hmiss; assumption]. }
    apply in_app_iff in Hfail as [[Hhead | Hfail] | [Hhead | Hfail]].
    + revert Hhead. clear - Hin. cbn [package_files build_files app In] in Hin.
      repeat (destruct Hin as [<- | Hin]); try contradiction; discriminate.
    + apply in_map_iff in Hfail as (p & Heq & Hp'). apply (Hall p); [|exact Heq].
      apply in_app_iff. left. exact Hp'.
    + revert Hhead. clear - Hin. cbn [package_files build_files app In] in Hin.
      repeat (destruct Hin as [<- | Hin]); try contradiction; discriminate.
    + apply in_map_iff in Hfail as (p & Heq & Hp'). apply (Hall p); [|exact Heq].
      apply in_app_iff. right. exact Hp'.
Qed.

(** ** Errors of the version-consistency check *)

(** A first version line without "=" makes the check raise [IndexError]
    right after its heading, whatever the second file holds: the check
    does not return false. *)
Theorem version_check_index_error (fs : gmap string entry) (f line : text) :
  fs !! "swagger_sdk/__init__.py" = Some (Readable f) ->
  first_version_line f = Some line ->
  ~ In (ch "=") line ->
  check_version_consistency fs = ([nl ++ u "检查版本号一致性..."], Raises IndexError).
Proof.
  intros Hinit Hline Hnin.
  unfold check_version_consistency, path_exists, open_read.
  cbv zeta. rewrite Hinit. cbn [negb].
  rewrite bind_ret, (version_loop_without_eq f line Hline Hnin).
  reflexivity.
Qed.

Lemma version_check_index_error_witness :
  check_version_consistency fs_no_eq = ([nl ++ u "检查版本号一致性..."], Raises IndexError).
Proof.
  apply (version_check_index_error fs_no_eq (u "__version__" ++ nl) (u "__version__" ++ nl)).
  - reflexivity.
  - reflexivity.
  - apply not_In_literal. reflexivity.
Defined.

(** A metadata file that exists but cannot be opened makes the
    version-consistency check raise the [OSError] instead of returning:
    for [__init__.py] right after the heading, for [pyproject.toml] after
    the line that shows the non-empty version just extracted. *)
Theorem version_check_unopenable (fs : gmap string entry) (msg : text) :
  (fs !! "swagger_sdk/__init__.py" = Some (Unopenable msg) ->
     check_version_consistency fs =
       ([nl ++ u "检查版本号一致性..."], Raises (OSError msg))) /\
  (forall v, extracted_version fs = Some v -> v <> [] ->
     fs !! "pyproject.toml" = Some (Unopenable msg) ->
     check_version_consistency fs =
       ([nl ++ u "检查版本号一致性..."; u "[OK] __init__.py 版本: " ++ v],
        Raises (OSError msg))).
Proof.
  split.
  - intros Hinit. unfold check_version_consistency, path_exists, open_read.
    cbv zeta. rewrite Hinit. reflexivity.
  - intros v Hv Hne Hpy. unfold extracted_version in Hv.
    destruct (fs !! "swagger_sdk/__init__.py") as [[f|msg']|] eqn:Hinit;
      try discriminate Hv.
    rewrite version_loop_eq in Hv.
    unfold check_version_consistency, path_exists, open_read.
    cbv zeta. rewrite Hinit, Hpy. cbn [negb]. rewrite bind_ret, version_loop_eq.
    destruct (List.find (startswith (u "__version__")) (readlines f)) as [line|];
      [|discriminate Hv].
    destruct (line_value line) as [v'|]; [|discriminate Hv].
    cbn [outcome_of ret snd] in Hv. injection Hv as ->.
    rewrite bind_ret. destruct v as [|c v]; [contradiction|]. reflexivity.
Qed.

Lemma version_check_unopenable_witness :
  check_version_consistency fs_pyproject_unopenable =
    ([nl ++ u "检查版本号一致性..."; u "[OK] __init__.py 版本: " ++ u "1.0.0"],
     Raises (OSError (u "[Errno 13] Permission denied: 'pyproject.toml'"))).
Proof.
  apply (proj2 (version_check_unopenable fs_pyproject_unopenable
                  (u "[Errno 13] Permission denied: 'pyproject.toml'"))
           (u "1.0.0")).
  - reflexivity.
  - discriminate.
  - reflexivity.
Defined.

Lemma check_version_consistency_ext (fs1 fs2 : gmap string entry) :
  fs1 !! "swagger_sdk/__init__.py" = fs2 !! "swagger_sdk/__init__.py" ->
  fs1 !! "pyproject.toml" = fs2 !! "pyproject.toml" ->
  check_version_consistency fs1 = check_version_consistency fs2.
Proof.
  intros Hinit Hpy. unfold check_version_consistency, path_exists, open_read.
  cbv zeta. rewrite Hinit, Hpy. reflexivity.
Qed.

Lemma check_version_consistency_same_loop (fs1 fs2 : gmap string entry) (f1 f2 : text) :
  fs1 !! "swagger_sdk/__init__.py" = Some (Readable f1) ->
  fs2 !! "swagger_sdk/__init__.py" = Some (Readable f2) ->
  version_loop (readlines f1) = version_loop (readlines f2) ->
  fs1 !! "pyproject.toml" = fs2 !! "pyproject.toml" ->
  check_version_consistency fs1 = check_version_consistency fs2.
Proof.
  intros H1 H2 Hloop Hpy. unfold check_version_consistency, path_exists, open_read.
  cbv zeta. rewrite H1, H2, Hpy. cbn [negb]. rewrite !bind_ret, Hloop. reflexivity.
Qed.

(** The loop stops at the first version line.  For two working directories
    whose [__init__.py] are both text that decodes as a whole ([Readable])
    and agree up to the end of their first version line, and whose
    [pyproject.toml] agree, the version-consistency check prints and
    returns the same: the lines after that one, a later [__version__] line
    included, change nothing. *)
Theorem text_after_version_line_ignored (fs1 fs2 : gmap string entry)
    (head line rest1 rest2 : text) :
  fs1 !! "swagger_sdk/__init__.py" = Some (Readable ((head ++ nl) ++ rest1)) ->
  fs2 !! "swagger_sdk/__init__.py" = Some (Readable ((head ++ nl) ++ rest2)) ->
  first_version_line (head ++ nl) = Some line ->
  fs1 !! "pyproject.toml" = fs2 !! "pyproject.toml" ->
  check_version_consistency fs1 = check_version_consistency fs2.
Proof.
  intros H1 H2 Hline Hpy.
  apply (check_version_consistency_same_loop fs1 fs2 _ _ H1 H2); [|exact Hpy].
  unfold first_version_line in Hline.
  rewrite !version_loop_eq, !readlines_app_nl, !find_app, Hline. reflexivity.
Qed.

Lemma text_after_version_line_ignored_witness :
  check_version_consistency
    (<[ "swagger_sdk/__init__.py" :=
          Readable ((u "__version__ = '1.0.0'" ++ nl) ++ version_line (u "2.0.0")) ]> fs_complete) =
  check_version_consistency
    (<[ "swagger_sdk/__init__.py" := Readable ((u "__version__ = '1.0.0'" ++ nl) ++ []) ]>
       fs_complete).
Proof.
  apply (text_after_version_line_ignored _ _
           (u "__version__ = '1.0.0'") (u "__version__ = '1.0.0'" ++ nl)
           (version_line (u "2.0.0")) []);
    reflexivity.
Defined.

(** ** Warnings and errors of the metadata check *)

Lemma found_iff (fs : gmap string entry) (path : string) (placeholder : text) :
  found fs path placeholder = true <->
  exists content, fs !! path = Some (Readable content) /\
    contains placeholder content = true.
Proof.
  unfold found. destruct (fs !! path) as [[content|msg]|]; split.
  - intros H. exists content. split; [reflexivity | exact H].
  - intros (c & Heq & H). injection Heq as <-. exact H.
  - discriminate.
  - intros (c & Heq & _). discriminate Heq.
  - discriminate.
  - intros (c & Heq & _). discriminate Heq.
Qed.

Lemma check_metadata_stdout (fs : gmap string entry) :
  openable fs "pyproject.toml" -> openable fs "setup.py" ->
  stdout (check_metadata fs) =
    (nl ++ u "检查元数据...") ::
    match
      (if found fs "pyproject.toml" (u "your.email@example.com")
       then [u "[WARN] pyproject.toml 中的作者邮箱需要更新"] else [])
      ++ (if found fs "pyproject.toml" (u "yourusername")
          then [u "[WARN] pyproject.toml 中的 GitHub 用户名需要更新"] else [])
      ++ (if found fs "setup.py" (u "Your Name")
          then [u "[WARN] setup.py 中的作者信息需要更新"] else [])
    with
    | [] => [u "[OK] 元数据检查通过"]
    | warnings => warnings
    end.
Proof.
  intros Hpy Hsetup.
  unfold check_metadata. rewrite bind_print.
  unfold found, path_exists, open_read, warn_if.
  destruct (fs !! "pyproject.toml") as [[content|msg]|] eqn:Epy;
    [| destruct (Hpy msg Epy) |];
    (destruct (fs !! "setup.py") as [[content'|msg']|] eqn:Esetup;
       [| destruct (Hsetup msg' Esetup) |]);
    cbv beta iota zeta delta [bind ret raise];
    try (destruct (contains (u "your.email@example.com") content);
         destruct (contains (u "yourusername") content));
    try destruct (contains (u "Your Name") content');
    reflexivity.
Qed.

Lemma pyproject_flagged_found (fs : gmap string entry) :
  pyproject_flagged fs =
    found fs "pyproject.toml" (u "your.email@example.com")
    || found fs "pyproject.toml" (u "yourusername").
Proof.
  unfold pyproject_flagged, found.
  destruct (fs !! "pyproject.toml") as [[content|msg]|]; reflexivity.
Qed.

Lemma warnings_membership (h w1 w2 w3 ok : text) (b1 b2 b3 : bool) :
  h <> w1 -> h <> w2 -> h <> w3 -> h <> ok ->
  w1 <> w2 -> w1 <> w3 -> w1 <> ok -> w2 <> w3 -> w2 <> ok -> w3 <> ok ->
  let out :=
    h :: match (if b1 then [w1] else []) ++ (if b2 then [w2] else [])
                 ++ (if b3 then [w3] else []) with
         | [] => [ok]
         | warnings => warnings
         end in
  (In w1 out <-> b1 = true) /\ (In w2 out <-> b2 = true) /\
  (In w3 out <-> b3 = true) /\ (In ok out <-> ~ (b1 || b2) || b3 = true).
Proof.
  intros. subst out. destruct b1, b2, b3; cbn; intuition congruence.
Qed.

(** When both metadata files are absent or can be opened, the check prints
    a warning for every placeholder it finds, not only for the first: each
    of the three warnings is printed exactly when its placeholder is in
    its file, and the closing OK line exactly when none is. *)
Theorem check_metadata_warnings (fs : gmap string entry) :
  openable fs "pyproject.toml" -> openable fs "setup.py" ->
  (In (u "[WARN] pyproject.toml 中的作者邮箱需要更新") (stdout (check_metadata fs)) <->
     exists content, fs !! "pyproject.toml" = Some (Readable content) /\
       contains (u "your.email@example.com") content = true) /\
  (In (u "[WARN] pyproject.toml 中的 GitHub 用户名需要更新") (stdout (check_metadata fs)) <->
     exists content, fs !! "pyproject.toml" = Some (Readable content) /\
       contains (u "yourusername") content = true) /\
  (In (u "[WARN] setup.py 中的作者信息需要更新") (stdout (check_metadata fs)) <->
     exists content, fs !! "setup.py" = Some (Readable content) /\
       contains (u "Your Name") content = true) /\
  (In (u "[OK] 元数据检查通过") (stdout (check_metadata fs)) <-> ~ placeholder_left fs).
Proof.
  intros Hpy Hsetup.
  rewrite (check_metadata_stdout fs Hpy Hsetup), placeholder_left_iff.
  rewrite <- !found_iff, pyproject_flagged_found.
  change (setup_flagged fs) with (found fs "setup.py" (u "Your Name")).
  apply warnings_membership; discriminate.
Qed.

Lemma check_metadata_warnings_witness :
  In (u "[WARN] pyproject.toml 中的作者邮箱需要更新") (stdout (check_metadata fs_all_placeholders)) /\
  In (u "[WARN] pyproject.toml 中的 GitHub 用户名需要更新") (stdout (check_metadata fs_all_placeholders)) /\
  In (u "[WARN] setup.py 中的作者信息需要更新") (stdout (check_metadata fs_all_placeholders)).
Proof.
  assert (Hpy : openable fs_all_placeholders "pyproject.toml")
    by (intros msg; vm_compute; discriminate).
  assert (Hsetup : openable fs_all_placeholders "setup.py")
    by (intros msg; vm_compute; discriminate).
  destruct (check_metadata_warnings fs_all_placeholders Hpy Hsetup) as (H1 & H2 & H3 & _).
  split; [|split].
  - apply H1. eexists. split; reflexivity.
  - apply H2. eexists. split; reflexivity.
  - apply H3. eexists. split; reflexivity.
Defined.

(** A metadata file that exists but cannot be opened makes the check
    raise the [OSError] right after its heading; when it is [setup.py],
    the warnings already collected for [pyproject.toml] are not printed. *)
Theorem check_metadata_unopenable (fs : gmap string entry) (msg : text) :
  (fs !! "pyproject.toml" = Some (Unopenable msg) ->
     check_metadata fs = ([nl ++ u "检查元数据..."], Raises (OSError msg))) /\
  (openable fs "pyproject.toml" -> fs !! "setup.py" = Some (Unopenable msg) ->
     check_metadata fs = ([nl ++ u "检查元数据..."], Raises (OSError msg))).
Proof.
  split.
  - intros Hpy. unfold check_metadata, path_exists, open_read. rewrite Hpy. reflexivity.
  - intros Hpy Hsetup. unfold check_metadata, path_exists, open_read, warn_if.
    rewrite Hsetup.
    destruct (fs !! "pyproject.toml") as [[content|msg']|] eqn:Epy;
      [| destruct (Hpy msg' Epy) | reflexivity].
    rewrite bind_print, bind_ret. reflexivity.
Qed.

Lemma check_metadata_unopenable_witness :
  check_metadata fs_setup_unopenable =
    ([nl ++ u "检查元数据..."],
     Raises (OSError (u "[Errno 21] Is a directory: 'setup.py'"))).
Proof.
  apply (proj2 (check_metadata_unopenable fs_setup_unopenable
                  (u "[Errno 21] Is a directory: 'setup.py'"))).
  - intros msg. vm_compute. discriminate.
  - reflexivity.
Defined.

(** ** The runner on the whole working directory *)

Lemma main_with_outcome (fs : gmap string entry) (cs : list (text * check_func)) :
  outcome_of (main_with cs fs) =
    Returns (exit_code (forallb (fun c => passed (snd c fs)) cs)).
Proof.
  rewrite main_with_eq. cbn [outcome_of snd]. rewrite forallb_snd_recorded. reflexivity.
Qed.

Lemma exit_code_zero (b : bool) : Returns (exit_code b) = Returns 0%Z <-> b = true.
Proof. destruct b; cbn; split; congruence. Qed.

Lemma passed_file_list (fs : gmap string entry) :
  passed (check_package_structure fs) = forallb (path_exists fs) package_files /\
  passed (check_build_files fs) = forallb (path_exists fs) build_files.
Proof.
  unfold passed, check_package_structure, check_build_files.
  rewrite !outcome_bind_print, !required_files_loop_eq. split; reflexivity.
Qed.

Lemma version_passes_with_pyproject (fs : gmap string entry) :
  is_Some (fs !! "pyproject.toml") ->
  (passed (check_version_consistency fs) = true <->
   exists v, extracted_version fs = Some v /\ v <> [] /\ pattern_in_pyproject fs v).
Proof.
  intros [e He]. rewrite passed_true_iff, check_version_consistency_outcome.
  unfold extracted_version, pattern_in_pyproject, compare_with_pyproject.
  rewrite He.
  destruct (fs !! "swagger_sdk/__init__.py") as [[f|msg]|];
    [| split; [discriminate | intros (v & Hv & _); discriminate Hv] ..].
  destruct (outcome_of (version_loop (readlines f))) as [[[|c v]|]|e'];
    try (split; [discriminate | intros (v' & Hv & Hne & _); try discriminate Hv;
                  injection Hv as <-; contradiction]).
  destruct e as [content|msg].
  - split.
    + intros H. injection H as H. exists (c :: v).
      split; [reflexivity|]. split; [discriminate|]. exists content. auto.
    + intros (v' & Hv & _ & content' & Hc & Hin).
      injection Hv as <-. injection Hc as <-. rewrite Hin. reflexivity.
  - split; [discriminate|]. intros (v' & _ & _ & content' & Hc & _). discriminate Hc.
Qed.

Lemma metadata_passes_iff (fs : gmap string entry) :
  passed (check_metadata fs) = true <->
  openable fs "pyproject.toml" /\ openable fs "setup.py" /\ ~ placeholder_left fs.
Proof.
  rewrite passed_true_iff, check_metadata_outcome, placeholder_left_iff.
  unfold openable.
  destruct (fs !! "pyproject.toml") as [[content|msg]|];
    destruct (fs !! "setup.py") as [[content'|msg']|];
    try (split; [discriminate | intros (H1 & H2 & _); exfalso;
                 first [exact (H1 _ eq_refl) | exact (H2 _ eq_refl)]]);
    (destruct (pyproject_flagged fs || setup_flagged fs); cbn [negb];
     (split;
      [ intros H; repeat split; congruence
      | intros (_ & _ & H); congruence ])).
Qed.

(** Exit code 0 means a directory ready to publish, and nothing less: the
    runner returns 0 exactly when all nine required files exist, a
    non-empty version is extracted from [__init__.py] and found as
    [version = "<v>"] in [pyproject.toml], [setup.py] can be opened, and no
    placeholder is left.  The pass of the version check on a missing
    [pyproject.toml] never reaches the exit code. *)
Theorem exit_zero_iff (fs : gmap string entry) :
  outcome_of (main fs) = Returns 0%Z <->
  (forall path, In path (package_files ++ build_files) -> is_Some (fs !! path)) /\
  (exists v, extracted_version fs = Some v /\ v <> [] /\ pattern_in_pyproject fs v) /\
  openable fs "setup.py" /\
  ~ placeholder_left fs.
Proof.
  unfold main. rewrite main_with_outcome, exit_code_zero.
  unfold checks. cbn [forallb snd].
  destruct (passed_file_list fs) as [-> ->].
  rewrite andb_true_r, !andb_true_iff, metadata_passes_iff, !forallb_exists_iff.
  split.
  - intros (Hpkg & Hver & Hbuild & Hpy & Hsetup & Hclean).
    assert (Hex : is_Some (fs !! "pyproject.toml")) by (apply Hbuild; left; reflexivity).
    apply (version_passes_with_pyproject fs Hex) in Hver.
    split; [|auto].
    intros path Hin. apply in_app_iff in Hin as [Hin | Hin]; auto.
  - intros (Hall & Hver & Hsetup & Hclean).
    assert (Hex : is_Some (fs !! "pyproject.toml")).
    { apply Hall, in_app_iff. right. left. reflexivity. }
    split; [intros path Hin; apply Hall, in_app_iff; auto|].
    split; [apply (version_passes_with_pyproject fs Hex), Hver|].
    split; [intros path Hin; apply Hall, in_app_iff; auto|].
    split; [|auto].
    destruct Hver as (v & _ & _ & content & Hc & _).
    intros msg Hmsg. rewrite Hc in Hmsg. discriminate Hmsg.
Qed.

(** Whatever raises inside a check reaches the user as a failure: when a
    check of the list raises, the runner still returns exit code 1, and its
    output holds both the line with the message of the exception and the
    failed line of the summary for that check. *)
Theorem raised_check_is_reported (fs : gmap string entry)
    (cs : list (text * check_func)) (name : text) (f : check_func) (e : exn) :
  In (name, f) cs ->
  outcome_of (f fs) = Raises e ->
  outcome_of (main_with cs fs) = Returns 1%Z /\
  In (exn_line name e) (stdout (main_with cs fs)) /\
  In (name ++ u ": [FAIL] 失败") (stdout (main_with cs fs)).
Proof.
  intros Hin He.
  assert (Hfailed : passed (f fs) = false) by (unfold passed; rewrite He; reflexivity).
  split; [|split].
  - rewrite main_with_outcome.
    destruct (forallb (fun c => passed (snd c fs)) cs) eqn:Hall; [|reflexivity].
    rewrite forallb_forall in Hall. specialize (Hall _ Hin). cbn [snd] in Hall. congruence.
  - rewrite main_with_eq. cbn [stdout fst].
    apply in_app_iff. right. apply in_app_iff. left.
    apply in_flat_map. exists (name, f). split; [exact Hin|].
    unfold check_output. cbn [fst snd]. rewrite He.
    apply in_app_iff. right. left. reflexivity.
  - rewrite main_with_eq. cbn [stdout fst].
    do 3 (apply in_app_iff; right). apply in_app_iff. left.
    apply in_map_iff. exists (name, false). split; [reflexivity|].
    apply in_map_iff. exists (name, f). split; [|exact Hin].
    unfold recorded. cbn [fst snd]. rewrite Hfailed. reflexivity.
Qed.

Lemma raised_check_is_reported_witness :
  outcome_of (main_with checks fs_no_eq) = Returns 1%Z /\
  In (exn_line (u "版本一致性") IndexError) (stdout (main_with checks fs_no_eq)) /\
  In (u "版本一致性" ++ u ": [FAIL] 失败") (stdout (main_with checks fs_no_eq)).
Proof.
  apply (raised_check_is_reported fs_no_eq checks
           (u "版本一致性") check_version_consistency IndexError).
  - right. left. reflexivity.
  - vm_compute. reflexivity.
Defined.

(** ** What the runner reads, and the order of the checks *)

Lemma forallb_ext_in {A} (f g : A -> bool) (l : list A) :
  (forall x, In x l -> f x = g x) -> forallb f l = forallb g l.
Proof.
  induction l as [|x l IH]; intros H; [reflexivity|].
  cbn [forallb]. rewrite (H x) by (left; reflexivity).
  rewrite IH; [reflexivity|]. intros y Hy. apply H. right. exact Hy.
Qed.

Lemma required_files_loop_ext (fs1 fs2 : gmap string entry) (files : list string)
    (all_exist : bool) :
  (forall path, In path files -> fs1 !! path = fs2 !! path) ->
  required_files_loop fs1 files all_exist = required_files_loop fs2 files all_exist.
Proof.
  intros Hagree. rewrite !required_files_loop_eq.
  assert (He : forall path, In path files -> path_exists fs1 path = path_exists fs2 path).
  { intros path Hin. unfold path_exists. rewrite (Hagree path Hin). reflexivity. }
  rewrite (forallb_ext_in _ _ files He).
  rewrite (map_ext_in (exists_line fs1) (exists_line fs2)); [reflexivity|].
  intros path Hin. unfold exists_line. rewrite (He path Hin). reflexivity.
Qed.

Lemma check_metadata_ext (fs1 fs2 : gmap string entry) :
  fs1 !! "pyproject.toml" = fs2 !! "pyproject.toml" ->
  fs1 !! "setup.py" = fs2 !! "setup.py" ->
  check_metadata fs1 = check_metadata fs2.
Proof.
  intros Hpy Hsetup. unfold check_metadata, path_exists, open_read.
  rewrite Hpy, Hsetup. reflexivity.
Qed.

(** The runner reads nothing but the nine required paths: two working
    directories that agree on them get the same output and the same exit
    code, whatever else they hold. *)
Theorem main_reads_only_required_paths (fs1 fs2 : gmap string entry) :
  (forall path, In path (package_files ++ build_files) -> fs1 !! path = fs2 !! path) ->
  main fs1 = main fs2.
Proof.
  intros Hagree.
  assert (Hpkg : check_package_structure fs1 = check_package_structure fs2).
  { unfold check_package_structure. cbv zeta.
    rewrite (required_files_loop_ext fs1 fs2); [reflexivity|].
    intros path Hin. apply Hagree, in_app_iff. left. exact Hin. }
  assert (Hbuild : check_build_files fs1 = check_build_files fs2).
  { unfold check_build_files. cbv zeta.
    rewrite (required_files_loop_ext fs1 fs2); [reflexivity|].
    intros path Hin. apply Hagree, in_app_iff. right. exact Hin. }
  assert (Hver : check_version_consistency fs1 = check_version_consistency fs2).
  { apply check_version_consistency_ext; apply Hagree; cbn; tauto. }
  assert (Hmeta : check_metadata fs1 = check_metadata fs2).
  { apply check_metadata_ext; apply Hagree; cbn; tauto. }
  unfold main. rewrite !main_with_eq.
  unfold checks. cbn [map flat_map]. unfold check_output, recorded. cbn [fst snd].
  rewrite Hpkg, Hbuild, Hver, Hmeta. reflexivity.
Qed.

Lemma main_reads_only_required_paths_witness :
  main (<[ "dist/old.whl" := Readable [] ]> fs_complete) = main fs_complete.
Proof.
  apply main_reads_only_required_paths.
  intros path Hin. cbn [package_files build_files app In] in Hin.
  repeat (destruct Hin as [<- | Hin]); try reflexivity. contradiction.
Defined.

Lemma forallb_Permutation {A} (f : A -> bool) (l l' : list A) :
  Permutation l l' -> forallb f l = forallb f l'.
Proof.
  induction 1 as [| x l l' _ IH | x y l | l l' l'' _ IH1 _ IH2]; cbn [forallb].
  - reflexivity.
  - rewrite IH. reflexivity.
  - destruct (f x), (f y); reflexivity.
  - rewrite IH1. exact IH2.
Qed.

(** The exit code does not depend on the order in which the checks are
    listed: the generic runner returns the same code on any reordering of
    its list of checks. *)
Theorem exit_code_order_independent (fs : gmap string entry)
    (cs cs' : list (text * check_func)) :
  Permutation cs cs' ->
  outcome_of (main_with cs fs) = outcome_of (main_with cs' fs).
Proof.
  intros Hperm. rewrite !main_with_outcome.
  rewrite (forallb_Permutation _ cs cs' Hperm). reflexivity.
Qed.

Lemma exit_code_order_independent_witness :
  outcome_of (main_with checks fs_version_mismatch) =
  outcome_of (main_with (rev checks) fs_version_mismatch).
Proof.
  apply exit_code_order_independent. apply Permutation_rev.
Defined.

(** ** Spacing and quoting of a version line *)

Lemma not_In_spaces (c : char) (ws : text) :
  isspace c = false -> forallb isspace ws = true -> ~ In c ws.
Proof.
  intros Hc Hws Hin. rewrite forallb_forall in Hws. rewrite (Hws c Hin) in Hc.
  discriminate Hc.
Qed.

(** The value read from a version line depends neither on the white space
    around "=" and after the value nor on the kind of quotes: for a value
    [v] without "=" and without a quote at either end,
    [__version__<ws1>=<ws2><q><v><q><ws3>] gives [v], whatever the white
    space [ws1], [ws2], [ws3] and whichever quote [q]. *)
Theorem line_value_spacing (ws1 ws2 ws3 q v : text) :
  forallb isspace ws1 = true ->
  forallb isspace ws2 = true ->
  forallb isspace ws3 = true ->
  q = dquote \/ q = squote ->
  ~ In (ch "=") v ->
  ends_free is_quote v ->
  line_value (u "__version__" ++ ws1 ++ u "=" ++ ws2 ++ q ++ v ++ q ++ ws3) = Some v.
Proof.
  intros H1 H2 H3 Hq Heq Hv.
  destruct (ends_free_quote v Hv) as [Hd Hs].
  assert (Hq' : ~ In (ch "=") q) by (apply (not_In_quote _ _ Hq); discriminate).
  assert (Hsp : isspace (ch "=") = false) by reflexivity.
  assert (Hkey : ~ In (ch "=") (u "__version__" ++ ws1)).
  { rewrite in_app_iff. intros [H | H].
    - revert H. apply not_In_literal. reflexivity.
    - exact (not_In_spaces _ _ Hsp H1 H). }
  assert (Hfield : ~ In (ch "=") (ws2 ++ q ++ v ++ q ++ ws3)).
  { rewrite !in_app_iff. intros [H | [H | [H | [H | H]]]]; try contradiction.
    - exact (not_In_spaces _ _ Hsp H2 H).
    - exact (not_In_spaces _ _ Hsp H3 H). }
  replace (u "__version__" ++ ws1 ++ u "=" ++ ws2 ++ q ++ v ++ q ++ ws3)
    with ((u "__version__" ++ ws1) ++ ch "=" :: (ws2 ++ q ++ v ++ q ++ ws3))
    by (rewrite <- !app_assoc; reflexivity).
  rewrite line_value_In by (apply in_app_iff; right; left; reflexivity).
  unfold value_between_eq.
  rewrite (after_first_app _ _ _ Hkey), (before_first_not_In _ _ Hfield).
  unfold unquote, strip, strip_chars.
  replace (ws2 ++ q ++ v ++ q ++ ws3) with (ws2 ++ (q ++ v ++ q) ++ ws3)
    by (rewrite <- !app_assoc; reflexivity).
  f_equal. destruct Hq as [-> | ->].
  - rewrite (strip_by_wrapped _ ws2 _ ws3 H2 H3)
      by (apply (ends_free_wrapped isspace 34%N); reflexivity).
    rewrite strip_by_wrapped; [| reflexivity | reflexivity | exact Hd].
    rewrite <- (app_nil_r v) at 1.
    apply (strip_by_wrapped _ [] v []); [reflexivity | reflexivity | exact Hs].
  - rewrite (strip_by_wrapped _ ws2 _ ws3 H2 H3)
      by (apply (ends_free_wrapped isspace 39%N); reflexivity).
    rewrite <- (app_nil_r (squote ++ v ++ squote)) at 1.
    rewrite (strip_by_wrapped _ [] (squote ++ v ++ squote) []);
      [| reflexivity | reflexivity
       | apply (ends_free_wrapped (fun c => existsb (N.eqb c) dquote) 39%N); reflexivity].
    apply strip_by_wrapped; [reflexivity | reflexivity | exact Hs].
Qed.

Lemma line_value_spacing_witness :
  line_value (u "__version__" ++ [] ++ u "=" ++ [9%N; 32%N] ++ squote ++ u "1.0.0"
              ++ squote ++ [32%N; 10%N]) = Some (u "1.0.0").
Proof.
  apply (line_value_spacing [] [9%N; 32%N] [32%N; 10%N] squote (u "1.0.0")).
  - reflexivity.
  - reflexivity.
  - reflexivity.
  - right. reflexivity.
  - apply not_In_literal. reflexivity.
  - split; reflexivity.
Defined.
